(** * ignite.engine.events: events, event filters, event lists, engine state
      and removable handles

    A shallow embedding of [src/ignite/engine/events.py].  Python objects are
    modelled by a small universe of values, methods by functions that return
    either a value or the exception they raise, and the mutable objects
    ([EventsList] instances, engines) live in an explicit store that is
    threaded through the methods that touch them. *)

From Stdlib Require Import ZArith Bool Lia.
From stdpp Require Import base option list gmap strings.


Local Open Scope Z_scope.

(** ** Values and exceptions *)

(** Addresses of heap objects ([EventsList] instances, engines, handlers). *)
Definition addr := nat.

(** The exception classes the module raises, and the ones the interpreter
    raises on its behalf.  The specification calls [ValueError]
    InvalidArgument, [RuntimeError] UnknownEvent and [NotImplementedError]
    IncomparableType; [InvalidCallable] is the specification's name of the
    failure of [_check_signature], whose source is not at hand. *)
Inductive exn_class :=
| ValueError
| TypeError
| RuntimeError
| NotImplementedError
| AttributeError
| IndexError
| ZeroDivisionError
| KeyError
| InvalidCallable.

(** The two classes an event object can have: a member of the enumeration
    [Events], or a plain [CallableEventWithFilter] made by calling an event. *)
Inductive event_class := cls_Events | cls_CallableEventWithFilter.

Section Values.
Context {Engine : Type}.

(** Python values.  A function object is its list of positional parameters
    and its body on an engine and an integer counter, which answers a boolean
    or raises.  An event object carries the three attributes [filter],
    [_value_] and [_name_]; the last is absent when the object was constructed
    without a name. *)
Inductive pyval : Type :=
| VNone
| VBool (b : bool)
| VInt (z : Z)
| VStr (s : string)
| VFunction (params : list string) (body : Engine -> Z -> exn_class + bool)
| VEvent (e : event)
| VEventsList (a : addr)
| VEngine (eng : Engine)
with event : Type :=
| mkEvent (cls : event_class) (filter : pyval) (_value_ : string)
    (_name_ : option string).

Definition cls (e : event) : event_class :=
  match e with mkEvent c _ _ _ => c end.
Definition filter (e : event) : pyval :=
  match e with mkEvent _ f _ _ => f end.
Definition _value_ (e : event) : string :=
  match e with mkEvent _ _ v _ => v end.
Definition _name_ (e : event) : option string :=
  match e with mkEvent _ _ _ n => n end.

(** The argument of a [format] call: [str(v)] or [type(v)], left unrendered
    (the rendering of a function object shows its address). *)
Inductive fmt_arg :=
| Str_of (v : pyval)
| Type_of (v : pyval).

(** An exception: its class, the message template and the template's
    arguments.  Exceptions raised by the interpreter itself carry an empty
    template. *)
Record exn := Exception {
  exc_class : exn_class;
  exc_template : string;
  exc_args : list fmt_arg
}.

Inductive result (A : Type) : Type :=
| Ok (a : A)
| Err (e : exn).

End Values.

Arguments pyval : clear implicits.
Arguments event : clear implicits.
Arguments fmt_arg : clear implicits.
Arguments exn : clear implicits.
Arguments result : clear implicits.
Arguments Ok {Engine A} a.
Arguments Err {Engine A} e.

(** [hash] on strings is left open: the interpreter seeds it per process. *)
Class StrHash := str_hash : string -> Z.

(** ** Exceptions and state

    A method that may raise returns a [result]; a method that also reads or
    writes mutable objects is a function on the store which returns the store
    it leaves behind, also when it raises. *)

Section Monads.
Context {Engine : Type}.

Definition raise {A} (c : exn_class) (msg : string) : result Engine A :=
  Err (Exception c msg []).

#[export] Instance result_ret : MRet (result Engine) := fun A a => Ok a.

#[export] Instance result_bind : MBind (result Engine) :=
  fun A B k m =>
    match m with
    | Ok a => k a
    | Err e => Err e
    end.

Definition ST (S A : Type) : Type := S -> result Engine A * S.

#[export] Instance ST_ret {S} : MRet (ST S) := fun A a s => (Ok a, s).

#[export] Instance ST_bind {S} : MBind (ST S) :=
  fun A B k m s =>
    match m s with
    | (Ok a, s') => k a s'
    | (Err e, s') => (Err e, s')
    end.

Definition throw {S A} (e : exn Engine) : ST S A := fun s => (Err e, s).

Definition modify {S} (f : S -> S) : ST S unit := fun s => (Ok tt, f s).

(** [for x in xs: body(x)]. *)
Fixpoint for_each {S A} (xs : list A) (body : A -> ST S unit) : ST S unit :=
  match xs with
  | [] => mret tt
  | x :: xs' => body x ;; for_each xs' body
  end.

(** A call of one of the two methods of an engine that a handle uses:
    [has_event_handler(handler, e)] with the answer it gave, or
    [remove_event_handler(handler, e)]. *)
Inductive engine_call :=
| Has (handler : addr) (e : pyval Engine) (answer : bool)
| Remove (handler : addr) (e : pyval Engine).

(** The store: the [EventsList] objects with the content of their [_events];
    the engines that are alive; the handler objects to which something other
    than an engine holds a reference; and the calls made on engines so far,
    in their order (an observation, which no method reads).  A handler is
    alive while it is among [handlers] or an engine holds it. *)
Record world := World {
  events_lists : gmap addr (list (event Engine));
  engines : gmap addr Engine;
  handlers : gset addr;
  calls : list engine_call
}.

Definition set_events_lists
    (f : gmap addr (list (event Engine)) -> gmap addr (list (event Engine)))
    (w : world) : world :=
  World (f (events_lists w)) (engines w) (handlers w) (calls w).

(** The calls of [remove_event_handler] among the calls: handler and event
    of each. *)
Definition removal_of (c : engine_call) : option (addr * pyval Engine) :=
  match c with
  | Remove h e => Some (h, e)
  | Has _ _ _ => None
  end.


End Monads.

Arguments ST : clear implicits.
Arguments world : clear implicits.
Arguments engine_call : clear implicits.

Abbreviation M Engine := (ST Engine (world Engine)).

(** ** class EventsList

    An [EventsList] object is an address of the store; [_events] reads the
    list it holds.  The class is embedded ahead of the event classes because
    their [__or__] builds on it. *)

Module EventsList.
Section Methods.
Context {Engine : Type}.
Implicit Types (self : addr).

(** [EventsList()]: a new object with [_events = []]. *)
Definition __init__ : M Engine addr :=
  fun w =>
    let self := fresh (dom (events_lists w)) in
    (Ok self, set_events_lists (insert self []) w).

Definition _events (w : world Engine) self : list (event Engine) :=
  default [] (events_lists w !! self).

(** [isinstance(event, (Events, CallableEventWithFilter))] holds of the event
    objects of either class. *)
Definition _append self (event : pyval Engine) : M Engine unit :=
  match event with
  | VEvent e =>
      modify (fun w => set_events_lists (insert self (_events w self ++ [e])) w)
  | _ =>
      throw (Exception ValueError
        "Argument event should be Events or CallableEventWithFilter, got: {}"
        [Type_of event])
  end.

(** [self._events[item]] for an integer [item]: Python counts a negative
    index from the end and raises [IndexError] out of range. *)
Definition __getitem__ self (item : Z) : M Engine (pyval Engine) :=
  fun w =>
    let l := _events w self in
    let n := Z.of_nat (length l) in
    let i := if item <? 0 then item + n else item in
    if (0 <=? i) && (i <? n) then
      match l !! Z.to_nat i with
      | Some e => (Ok (VEvent e), w)
      | None => (raise IndexError "", w)
      end
    else (raise IndexError "", w).

(** [iter(self._events)], as the sequence it yields. *)
Definition __iter__ self : M Engine (list (pyval Engine)) :=
  fun w => (Ok (VEvent <$> _events w self), w).

Definition __len__ self : M Engine Z :=
  fun w => (Ok (Z.of_nat (length (_events w self))), w).

Definition __or__ self (other : pyval Engine) : M Engine addr :=
  _append self other ;; mret self.

End Methods.
End EventsList.

(** ** class CallableEventWithFilter *)

Module CallableEventWithFilter.
Section Methods.
Context {Engine : Type} `{StrHash}.
Implicit Types (self : event Engine) (other : pyval Engine).

(** [default_event_filter(engine, event)]. *)
Definition default_event_filter : pyval Engine :=
  VFunction ["engine"; "event"] (fun engine event => inr true).

(** [__init__], run on an object whose [_value_] and [_name_] may already be
    set ([pre_value], [pre_name]): the enumeration machinery sets both before
    it runs [__init__] on a member; a plain construction starts from neither. *)
Definition __init__ (c : event_class) (pre_value pre_name : option string)
    (value : string) (event_filter : pyval Engine) (name : option string)
  : event Engine :=
  let event_filter :=
    match event_filter with
    | VNone => default_event_filter
    | _ => event_filter
    end in
  mkEvent c event_filter
    (match pre_value with Some v => v | None => value end)
    (match pre_name with Some n => Some n | None => name end).

(** [CallableEventWithFilter(value, event_filter, name)]. *)
Definition new (value : string) (event_filter : pyval Engine)
    (name : option string) : event Engine :=
  __init__ cls_CallableEventWithFilter None None value event_filter name.

(** The properties [name] and [value]. *)
Definition name self : result Engine string :=
  match _name_ self with
  | Some n => Ok n
  | None => raise AttributeError ""
  end.

Definition value self : result Engine string := Ok (_value_ self).

Definition is_not_None (v : pyval Engine) : bool :=
  match v with VNone => false | _ => true end.

(** [callable(v)]: functions, and events, whose class defines [__call__]. *)
Definition callable (v : pyval Engine) : bool :=
  match v with
  | VFunction _ _ | VEvent _ => true
  | _ => false
  end.

(** [isinstance(v, numbers.Integral)] with the integer it stands for:
    [int], and [bool] with [True] as 1. *)
Definition as_integral (v : pyval Engine) : option Z :=
  match v with
  | VInt z => Some z
  | VBool b => Some (Z.b2z b)
  | _ => None
  end.

Definition isinstance_Integral (v : pyval Engine) : bool :=
  match as_integral v with Some _ => true | None => false end.

(** The integer of a value already known to be integral. *)
Definition integral_value (v : pyval Engine) : Z :=
  match as_integral v with Some z => z | None => 0 end.

Definition every_event_filter (every : Z) : pyval Engine :=
  VFunction ["engine"; "event"]
    (fun engine event =>
       if every =? 0 then inl ZeroDivisionError
       else if event mod every =? 0 then inr true else inr false).

Definition once_event_filter (once : Z) : pyval Engine :=
  VFunction ["engine"; "event"]
    (fun engine event => if event =? once then inr true else inr false).

(** Modelled from the spec: [_check_signature] of [ignite.engine.utils],
    which is imported but not among the sources.  The specification has the
    predicate "verified structurally": it must be callable with the two
    positional parameters [(engine, event)], and fails with InvalidCallable
    otherwise.  A function binds two positional arguments when it has two
    parameters; an event's [__call__] has three optional ones and binds them
    too. *)
Definition _check_signature (fn : pyval Engine) (args : list string)
  : result Engine unit :=
  match fn with
  | VFunction params _ =>
      if Nat.eqb (length params) (length args) then Ok tt
      else raise InvalidCallable ""
  | VEvent _ =>
      if Nat.leb (length args) 3 then Ok tt else raise InvalidCallable ""
  | _ => raise InvalidCallable ""
  end.

Definition __call__ self (event_filter every once : pyval Engine)
  : result Engine (event Engine) :=
  if negb (xorb (xorb (is_not_None event_filter) (is_not_None every))
                (is_not_None once))
  then raise ValueError "Only one of the input arguments should be specified"
  else if is_not_None event_filter && negb (callable event_filter)
  then raise TypeError "Argument event_filter should be a callable"
  else if is_not_None every
          && negb (isinstance_Integral every && (0 <? integral_value every))
  then raise ValueError "Argument every should be integer and greater than zero"
  else if is_not_None once
          && negb (isinstance_Integral once && (0 <? integral_value once))
  then raise ValueError "Argument every should be integer and positive"
  else
    let event_filter :=
      if is_not_None every then
        if integral_value every =? 1 then VNone
        else every_event_filter (integral_value every)
      else event_filter in
    let event_filter :=
      if is_not_None once then once_event_filter (integral_value once)
      else event_filter in
    _ ← (if is_not_None event_filter
          then _check_signature event_filter ["engine"; "event"]
          else Ok tt);
    v ← value self;
    n ← name self;
    Ok (new v event_filter (Some n)).

Definition __eq__ self other : result Engine bool :=
  match other with
  | VEvent o =>
      n ← name self; m ← name o; Ok (String.eqb n m)
  | VStr s =>
      n ← name self; Ok (String.eqb n s)
  | _ => raise NotImplementedError ""
  end.

Definition __hash__ self : result Engine Z :=
  match _name_ self with
  | Some n => Ok (str_hash n)
  | None => raise AttributeError ""
  end.

Definition __or__ self other : M Engine addr :=
  l ← EventsList.__init__;
  l ← EventsList.__or__ l (VEvent self);
  EventsList.__or__ l other.

End Methods.
End CallableEventWithFilter.

(** ** class Events *)

Module Events.

(** The members of the enumeration. *)
Inductive member :=
| EPOCH_STARTED
| EPOCH_COMPLETED
| STARTED
| COMPLETED
| ITERATION_STARTED
| ITERATION_COMPLETED
| EXCEPTION_RAISED
| GET_BATCH_STARTED
| GET_BATCH_COMPLETED.

Definition member_name (k : member) : string :=
  match k with
  | EPOCH_STARTED => "EPOCH_STARTED"
  | EPOCH_COMPLETED => "EPOCH_COMPLETED"
  | STARTED => "STARTED"
  | COMPLETED => "COMPLETED"
  | ITERATION_STARTED => "ITERATION_STARTED"
  | ITERATION_COMPLETED => "ITERATION_COMPLETED"
  | EXCEPTION_RAISED => "EXCEPTION_RAISED"
  | GET_BATCH_STARTED => "GET_BATCH_STARTED"
  | GET_BATCH_COMPLETED => "GET_BATCH_COMPLETED"
  end.

Definition member_value (k : member) : string :=
  match k with
  | EPOCH_STARTED => "epoch_started"
  | EPOCH_COMPLETED => "epoch_completed"
  | STARTED => "started"
  | COMPLETED => "completed"
  | ITERATION_STARTED => "iteration_started"
  | ITERATION_COMPLETED => "iteration_completed"
  | EXCEPTION_RAISED => "exception_raised"
  | GET_BATCH_STARTED => "get_batch_started"
  | GET_BATCH_COMPLETED => "get_batch_completed"
  end.

Section Methods.
Context {Engine : Type}.

(** The member object [Events.k]: the enumeration sets [_value_] and [_name_]
    and then runs [__init__] with the value as its only argument. *)
Definition get (k : member) : event Engine :=
  CallableEventWithFilter.__init__ cls_Events
    (Some (member_value k)) (Some (member_name k))
    (member_value k) VNone None.

Definition __or__ (self : event Engine) (other : pyval Engine) : M Engine addr :=
  l ← EventsList.__init__;
  l ← EventsList.__or__ l (VEvent self);
  EventsList.__or__ l other.

End Methods.
End Events.

Section Dispatch.
Context {Engine : Type}.

(** [self | other] for an event [self]: the method of its class. *)
Definition event_or (self : event Engine) (other : pyval Engine) : M Engine addr :=
  match cls self with
  | cls_Events => Events.__or__ self other
  | cls_CallableEventWithFilter => CallableEventWithFilter.__or__ self other
  end.

(** [f(engine, event)], the call by which an engine consults a filter [f].
    A function takes the two arguments when it has two parameters.  An event
    called this way receives the engine as [event_filter] and the counter as
    [every]. *)
Definition call_filter (f : pyval Engine) (engine : Engine) (event : Z)
  : result Engine (pyval Engine) :=
  match f with
  | VFunction params body =>
      if Nat.eqb (length params) 2 then
        match body engine event with
        | inr b => Ok (VBool b)
        | inl c => raise c ""
        end
      else raise TypeError ""
  | VEvent e =>
      e' ← CallableEventWithFilter.__call__ e (VEngine engine) (VInt event) VNone;
      Ok (VEvent e')
  | _ => raise TypeError ""
  end.

End Dispatch.

(** ** class State *)

Module State.
Section Methods.
Context {Engine : Type} `{StrHash}.

(** The class attribute [event_to_attr], as the items of the dict literal in
    their order.  The keys are the member objects; no two of them are equal,
    so the literal keeps all eight. *)
Definition event_to_attr : list (event Engine * string) :=
  [ (Events.get Events.GET_BATCH_STARTED, "iteration");
    (Events.get Events.GET_BATCH_COMPLETED, "iteration");
    (Events.get Events.ITERATION_STARTED, "iteration");
    (Events.get Events.ITERATION_COMPLETED, "iteration");
    (Events.get Events.EPOCH_STARTED, "epoch");
    (Events.get Events.EPOCH_COMPLETED, "epoch");
    (Events.get Events.STARTED, "epoch");
    (Events.get Events.COMPLETED, "epoch") ]%string.

(** The search of a dict for [key], whose hash is [h]: the first entry with
    the same hash whose key equals [key], by the stored key's [__eq__].  The
    dict keeps the hash a key had when it was stored; the name of a member
    never changes, so the hash is computed again here.  (The interpreter
    first tests whether the two are one object; a member equals itself, so
    the test changes no answer.) *)
Fixpoint dict_find (entries : list (event Engine * string))
    (key : event Engine) (h : Z) : result Engine (option string) :=
  match entries with
  | [] => Ok None
  | (k, v) :: rest =>
      hk ← CallableEventWithFilter.__hash__ k;
      if hk =? h then
        same ← CallableEventWithFilter.__eq__ k (VEvent key);
        if same : bool then Ok (Some v) else dict_find rest key h
      else dict_find rest key h
  end.

(** [key in d]. *)
Definition dict_contains (d : list (event Engine * string))
    (key : event Engine) : result Engine bool :=
  h ← CallableEventWithFilter.__hash__ key;
  r ← dict_find d key h;
  Ok (match r with Some _ => true | None => false end).

(** [d[key]]. *)
Definition dict_getitem (d : list (event Engine * string))
    (key : event Engine) : result Engine string :=
  h ← CallableEventWithFilter.__hash__ key;
  r ← dict_find d key h;
  match r with
  | Some v => Ok v
  | None => raise KeyError ""
  end.

(** A state object is its attribute dictionary: the constructor accepts any
    keyword and sets it as an attribute. *)
Definition getattr (self : gmap string (pyval Engine)) (attr : string)
  : result Engine (pyval Engine) :=
  match self !! attr with
  | Some v => Ok v
  | None => raise AttributeError ""
  end.

Definition get_event_attrib_value (self : gmap string (pyval Engine))
    (event_name : event Engine) : result Engine (pyval Engine) :=
  known ← dict_contains event_to_attr event_name;
  if negb known then
    Err (Exception RuntimeError "Unknown event name '{}'"
           [Str_of (VEvent event_name)])
  else
    attr ← dict_getitem event_to_attr event_name;
    getattr self attr.

End Methods.
End State.

(** ** class RemovableEventHandle *)

(** The two methods of an engine that a handle calls.  The engine is an
    external collaborator: [has_event_handler] answers on the engine's state,
    [remove_event_handler] changes it and may raise.  A handler is named by
    its address.  An engine holds references to the handlers registered with
    it; [holds_handler] tells whether its state holds one to a handler, which
    then keeps the handler alive. *)
Class EngineOps (Engine : Type) := {
  has_event_handler : Engine -> addr -> pyval Engine -> bool;
  remove_event_handler : addr -> pyval Engine -> ST Engine Engine unit;
  holds_handler : Engine -> addr -> bool
}.

Module RemovableEventHandle.

(** A handle: the event name it was made with and the two weak references,
    each the address of its referent. *)
Record t {Engine : Type} := Handle {
  event_name : pyval Engine;
  handler : addr;
  engine : addr
}.
Arguments t : clear implicits.

Section Methods.
Context {Engine : Type} `{EngineOps Engine}.

Definition __init__ (event_name : pyval Engine) (handler engine : addr)
  : t Engine :=
  Handle Engine event_name handler engine.

(** Calling a weak reference gives the referent while it is alive.  A
    handler is alive while a reference to it is held outside the engines or
    by an engine of the store; so a removal that drops the last reference
    leaves the weak reference dead once [remove] has returned. *)
Definition handler_ref (w : world Engine) (a : addr) : option addr :=
  if bool_decide (a ∈ handlers w)
     || existsb (fun eng => holds_handler eng a) (map_to_list (engines w)).*2
  then Some a else None.

Definition engine_ref (w : world Engine) (a : addr) : option Engine :=
  engines w !! a.

(** The guarded removal [if engine.has_event_handler(handler, e):
    engine.remove_event_handler(handler, e)], on the engine's state and the
    calls made so far. *)
Definition remove_if_present (handler : addr) (e : pyval Engine)
  : ST Engine (Engine * list (engine_call Engine)) unit :=
  fun '(eng, log) =>
    let answer := has_event_handler eng handler e in
    let log := log ++ [Has handler e answer] in
    if answer then
      let '(r, eng') := remove_event_handler handler e eng in
      (r, (eng', log ++ [Remove handler e]))
    else (Ok tt, (eng, log)).

(** [remove].  The local variables [handler] and [engine] keep the two
    objects alive while the method runs; the state the calls leave is the
    engine's state afterwards, and with it the references the engine still
    holds. *)
Definition remove (self : t Engine) : M Engine unit :=
  fun w =>
    match handler_ref w (handler self), engine_ref w (engine self) with
    | Some h, Some eng =>
        let body :=
          match event_name self with
          | VEventsList l =>
              for_each (VEvent <$> EventsList._events w l) (remove_if_present h)
          | e => remove_if_present h e
          end in
        let '(r, (eng', log')) := body (eng, calls w) in
        (r, World (events_lists w) (<[engine self := eng']> (engines w))
              (handlers w) log')
    | _, _ => (Ok tt, w)
    end.

Definition __enter__ (self : t Engine) : t Engine := self.

Definition __exit__ (self : t Engine) : M Engine unit := remove self.

End Methods.
End RemovableEventHandle.

(** ** Notions the statements use *)

#[export] Instance member_eq_dec : EqDecision Events.member.
Proof. solve_decision. Defined.

Section Notions.
Context {Engine : Type}.

(** The variants of a kind [k]: the member [Events.k] and every event made
    from a variant by a call that succeeded. *)
Inductive variant_of (k : Events.member) : event Engine -> Prop :=
| variant_member : variant_of k (Events.get k)
| variant_call self event_filter every once e :
    variant_of k self ->
    CallableEventWithFilter.__call__ self event_filter every once = Ok e ->
    variant_of k e.

(** The attribute the items of a dict literal give to the key named [n]. *)
Fixpoint attr_of_name (entries : list (event Engine * string)) (n : string)
  : option string :=
  match entries with
  | [] => None
  | (k, v) :: rest =>
      if decide (_name_ k = Some n) then Some v else attr_of_name rest n
  end.

(** The events a handle stands for: the members of its list, or the one
    event it was made with. *)
Definition members (w : world Engine) (self : RemovableEventHandle.t Engine)
  : list (pyval Engine) :=
  match RemovableEventHandle.event_name self with
  | VEventsList l => VEvent <$> EventsList._events w l
  | e => [e]
  end.

End Notions.

Section GuardedRemoval.
Context {Engine : Type} `{EngineOps Engine}.

(** The removal as the specification words it: for each member in the order
    of the group, ask the engine whether it has the handler for the member
    and, if it has, call the engine's removal for that member.
    [guarded_removal h eng es tr r eng'] says that, from the engine state
    [eng] and for the events [es], this makes the calls [tr], ends with [r]
    and leaves the engine in the state [eng']; a removal that raises ends
    it. *)
Inductive guarded_removal (h : addr)
  : Engine -> list (pyval Engine) -> list (engine_call Engine) ->
    result Engine unit -> Engine -> Prop :=
| guarded_done eng :
    guarded_removal h eng [] [] (Ok tt) eng
| guarded_absent eng e es tr r eng' :
    has_event_handler eng h e = false ->
    guarded_removal h eng es tr r eng' ->
    guarded_removal h eng (e :: es) (Has h e false :: tr) r eng'
| guarded_removed eng e es eng1 tr r eng' :
    has_event_handler eng h e = true ->
    remove_event_handler h e eng = (Ok tt, eng1) ->
    guarded_removal h eng1 es tr r eng' ->
    guarded_removal h eng (e :: es) (Has h e true :: Remove h e :: tr) r eng'
| guarded_failed eng e es x eng1 :
    has_event_handler eng h e = true ->
    remove_event_handler h e eng = (Err x, eng1) ->
    guarded_removal h eng (e :: es) [Has h e true; Remove h e] (Err x) eng1.

(** The queries answered true among the calls, and the events asked
    about. *)
Definition answered_true (c : engine_call Engine)
  : option (addr * pyval Engine) :=
  match c with
  | Has h e true => Some (h, e)
  | _ => None
  end.

Definition queried (c : engine_call Engine) : option (pyval Engine) :=
  match c with
  | Has _ e _ => Some e
  | Remove _ _ => None
  end.

End GuardedRemoval.

(** What the handle relies on in an engine: a handler that was removed for
    an event is no longer reported for it, and a removal, whatever its
    outcome, registers nothing. *)
Class EngineLaws (Engine : Type) `{EngineOps Engine} : Prop := {
  removed_is_absent eng h e eng' :
    remove_event_handler h e eng = (Ok tt, eng') ->
    has_event_handler eng' h e = false;
  removal_registers_nothing eng h e r eng' h' e' :
    remove_event_handler h e eng = (r, eng') ->
    has_event_handler eng h' e' = false ->
    has_event_handler eng' h' e' = false
}.

(** ** A small engine

    Modelled from the spec: the engine is outside the sources; the
    specification asks of it [has_event_handler(handler, event) -> bool] and
    [remove_event_handler(handler, event) -> None].  This one keeps its
    registrations as pairs of an event name and a handler, and refuses to
    remove what is not registered.  It serves to run the statements on
    concrete inputs. *)
Module ListEngine.

Record t := Make { registry : list (string * addr) }.

Definition key (e : pyval t) : option string :=
  match e with
  | VEvent ev => _name_ ev
  | VStr s => Some s
  | _ => None
  end.

Definition has (eng : t) (h : addr) (e : pyval t) : bool :=
  match key e with
  | Some n => bool_decide ((n, h) ∈ registry eng)
  | None => false
  end.

Definition remove (h : addr) (e : pyval t) : ST t t unit :=
  fun eng =>
    match key e with
    | Some n =>
        if bool_decide ((n, h) ∈ registry eng)
        then (Ok tt, Make (base.filter (fun p => p ≠ (n, h)) (registry eng)))
        else (raise ValueError "", eng)
    | None => (raise ValueError "", eng)
    end.

(** The registrations are the references the engine holds. *)
Definition holds (eng : t) (h : addr) : bool :=
  bool_decide (h ∈ (registry eng).*2).

#[global] Instance ops : EngineOps t :=
  {| has_event_handler := has; remove_event_handler := remove;
     holds_handler := holds |}.

(** A hash with many collisions: the length of the string. *)
Definition length_hash : StrHash := fun s => Z.of_nat (String.length s).

End ListEngine.

(** ** Concrete inputs

    A handler at address 7 registered on the small engine at address 0 for
    the two members of the list at address 1, [STARTED | COMPLETED(every=2)];
    a state in its third epoch; and some variants of members. *)
Module Sample.

Definition started_every_3 : event unit :=
  CallableEventWithFilter.new "started"
    (CallableEventWithFilter.every_event_filter 3) (Some "STARTED"%string).

Definition started_once_5 : event unit :=
  CallableEventWithFilter.new "started"
    (CallableEventWithFilter.once_event_filter 5) (Some "STARTED"%string).

Definition iteration_completed_every_10 : event unit :=
  CallableEventWithFilter.new "iteration_completed"
    (CallableEventWithFilter.every_event_filter 10)
    (Some "ITERATION_COMPLETED"%string).

Definition state : gmap string (pyval unit) :=
  {[ "iteration"%string := VInt 250; "epoch"%string := VInt 3 ]}.

Definition completed_every_2 : event ListEngine.t :=
  CallableEventWithFilter.new "completed"
    (CallableEventWithFilter.every_event_filter 2) (Some "COMPLETED"%string).

Definition group : list (event ListEngine.t) :=
  [Events.get Events.STARTED; completed_every_2].

Definition engine : ListEngine.t :=
  ListEngine.Make [("STARTED"%string, 7%nat); ("COMPLETED"%string, 7%nat);
                   ("COMPLETED"%string, 8%nat)].

Definition world0 : world ListEngine.t :=
  World {[ 1%nat := group ]} {[ 0%nat := engine ]} {[ 7%nat; 8%nat ]} [].

Definition handle : RemovableEventHandle.t ListEngine.t :=
  RemovableEventHandle.__init__ (VEventsList 1%nat) 7%nat 0%nat.

(** The store after the first [remove]. *)
Definition world1 : world ListEngine.t :=
  World {[ 1%nat := group ]}
    (<[ 0%nat := ListEngine.Make [("COMPLETED"%string, 8%nat)] ]>
       {[ 0%nat := engine ]})
    {[ 7%nat; 8%nat ]}
    [Has 7%nat (VEvent (Events.get Events.STARTED)) true;
     Remove 7%nat (VEvent (Events.get Events.STARTED));
     Has 7%nat (VEvent completed_every_2) true;
     Remove 7%nat (VEvent completed_every_2)].

End Sample.

(** ** Further notions and inputs *)

Section MoreNotions.
Context {Engine : Type}.

(** Whether the call [f(engine, counter)] returns [True]. *)
Definition answers_true (f : pyval Engine) (engine : Engine) (counter : Z)
  : bool :=
  match call_filter f engine counter with
  | Ok (VBool true) => true
  | _ => false
  end.

(** The counters among [1, ..., k] at which [f] returns [True], in their
    order. *)
Definition fired (f : pyval Engine) (engine : Engine) (k : nat) : list Z :=
  List.filter (answers_true f engine) (seqZ 1 (Z.of_nat k)).

(** [l | v1 | ... | vn] for a list [l]. *)
Fixpoint or_all (l : addr) (vs : list (pyval Engine)) : M Engine addr :=
  match vs with
  | [] => mret l
  | v :: vs' => l' ← EventsList.__or__ l v; or_all l' vs'
  end.

End MoreNotions.

(** An engine that reports every handler and whose removals always raise;
    it counts the attempts.  It serves to run the statements about a failing
    removal. *)
Module StubbornEngine.

Record t := Make { attempts : nat }.

#[global] Instance ops : EngineOps t :=
  {| has_event_handler := fun _ _ _ => true;
     remove_event_handler :=
       fun _ _ eng => (raise ValueError "", Make (S (attempts eng)));
     holds_handler := fun _ _ => true |}.

End StubbornEngine.

Module Cases.

(** [CallableEventWithFilter("custom")], constructed without a name. *)
Definition nameless : event unit :=
  CallableEventWithFilter.new "custom" VNone None.

(** A custom event whose name has the length of ["STARTED"]. *)
Definition stopped : event unit :=
  CallableEventWithFilter.new "stopped" VNone (Some "STOPPED"%string).

Definition three_events : list (event ListEngine.t) :=
  [Events.get Events.STARTED; Events.get Events.COMPLETED;
   Events.get Events.EPOCH_STARTED].

Definition world_with_list : world ListEngine.t :=
  World {[ 4%nat := three_events ]} ∅ ∅ [].

(** A store in which the engine alone holds handler 7, registered for
    [STARTED], and a handle for that one event. *)
Definition held_world : world ListEngine.t :=
  World ∅ {[ 0%nat := ListEngine.Make [("STARTED"%string, 7%nat)] ]} ∅ [].

Definition held_handle : RemovableEventHandle.t ListEngine.t :=
  RemovableEventHandle.__init__ (VEvent (Events.get Events.STARTED))
    7%nat 0%nat.

(** The store after [remove]: the registration is gone, and with it the
    last reference to the handler. *)
Definition held_world_after : world ListEngine.t :=
  World ∅ (<[ 0%nat := ListEngine.Make [] ]>
             {[ 0%nat := ListEngine.Make [("STARTED"%string, 7%nat)] ]}) ∅
    [Has 7%nat (VEvent (Events.get Events.STARTED)) true;
     Remove 7%nat (VEvent (Events.get Events.STARTED))].

Definition stubborn_group : list (event StubbornEngine.t) :=
  [Events.get Events.STARTED; Events.get Events.COMPLETED].

Definition stubborn_world : world StubbornEngine.t :=
  World {[ 1%nat := stubborn_group ]} {[ 0%nat := StubbornEngine.Make 0 ]}
    {[ 7%nat ]} [].

Definition stubborn_handle : RemovableEventHandle.t StubbornEngine.t :=
  RemovableEventHandle.__init__ (VEventsList 1%nat) 7%nat 0%nat.

End Cases.

(** * Properties *)

(** ** Calling an event *)

Section CallProperties.
Context {Engine : Type}.
Implicit Types (self e : event Engine) (f every once other : pyval Engine).

Import CallableEventWithFilter.

Lemma bind_Ok_inv {A B} (m : result Engine A) (k : A -> result Engine B) b :
  m ≫= k = Ok b -> exists a, m = Ok a /\ k a = Ok b.
Proof. destruct m as [a|x]; [eauto | discriminate]. Qed.

Lemma new_attributes (v : string) f (n : option string) :
  _value_ (new v f n) = v /\ _name_ (new v f n) = n.
Proof. split; reflexivity. Qed.

Lemma new_filter_default (v : string) (n : option string) :
  filter (new v (VNone : pyval Engine) n) = default_event_filter.
Proof. reflexivity. Qed.

(** A call that succeeds keeps the value and the name, and the name was
    there. *)
Lemma call_keeps_identity self f every once e :
  __call__ self f every once = Ok e ->
  _value_ e = _value_ self /\ _name_ e = _name_ self /\ is_Some (_name_ self).
Proof.
  unfold __call__. intros Hcall.
  repeat match type of Hcall with
         | context [if ?b then raise _ _ else _] =>
             destruct b; [discriminate Hcall|]
         end.
  apply bind_Ok_inv in Hcall as (_ & _ & Hcall).
  apply bind_Ok_inv in Hcall as (v & [= <-] & Hcall).
  apply bind_Ok_inv in Hcall as (n & Hn & [= <-]).
  unfold name in Hn. destruct (_name_ self) as [m|]; [|discriminate Hn].
  injection Hn as ->. repeat split; eauto.
Qed.

Lemma variant_of_identity (k : Events.member) e :
  variant_of k e ->
  _name_ e = Some (Events.member_name k) /\ _value_ e = Events.member_value k.
Proof.
  induction 1 as [|self f every once e _ [IHn IHv] Hcall].
  - split; reflexivity.
  - apply call_keeps_identity in Hcall as (Hv & Hn & _).
    split; congruence.
Qed.

Lemma member_name_inj (x y : Events.member) :
  Events.member_name x = Events.member_name y -> x = y.
Proof. destruct x, y; cbn; intros [=]; reflexivity. Qed.

(** The check at the head of [__call__] rejects a call without arguments. *)
Lemma call_without_argument_rejected self :
  __call__ self VNone VNone VNone
  = raise ValueError "Only one of the input arguments should be specified".
Proof. reflexivity. Qed.

(** It rejects every call with exactly two of the three arguments. *)
Lemma call_with_two_arguments_rejected self f every once :
  (is_not_None f && is_not_None every && negb (is_not_None once))
  || (is_not_None f && negb (is_not_None every) && is_not_None once)
  || (negb (is_not_None f) && is_not_None every && is_not_None once) = true ->
  __call__ self f every once
  = raise ValueError "Only one of the input arguments should be specified".
Proof.
  unfold __call__.
  destruct (is_not_None f), (is_not_None every), (is_not_None once);
    cbn; intros; (reflexivity || discriminate).
Qed.

(** With all three arguments the exclusive-or of the three tests is true, the
    check passes, and the filter of [once] is the one that is kept. *)
Lemma call_with_three_arguments_accepted self (nm : string)
    (params : list string) body (every once : Z) :
  _name_ self = Some nm -> length params = 2%nat -> 0 < every -> 0 < once ->
  __call__ self (VFunction params body) (VInt every) (VInt once)
  = Ok (new (_value_ self) (once_event_filter once) (Some nm)).
Proof.
  intros Hn Hp He Ho. unfold __call__, name, value. cbn.
  rewrite (proj2 (Z.ltb_lt 0 every) He), (proj2 (Z.ltb_lt 0 once) Ho), Hn.
  reflexivity.
Qed.

(** A single function of two parameters is accepted and becomes the filter. *)
Lemma call_with_filter_accepted self (nm : string) (params : list string)
    body :
  _name_ self = Some nm -> length params = 2%nat ->
  __call__ self (VFunction params body) VNone VNone
  = Ok (new (_value_ self) (VFunction params body) (Some nm)).
Proof.
  intros Hn Hp. unfold __call__, name, value. cbn. rewrite Hp, Hn. reflexivity.
Qed.

(** C1, where the code departs from the claim: called with a filter, [every]
    and [once] all at once, an event does not raise the error of the claim;
    it returns the variant whose filter is the one of [once]. *)
Theorem call_with_filter_every_once_returns :
  __call__ (Events.get Events.ITERATION_STARTED : event unit)
    default_event_filter (VInt 2) (VInt 3)
  = Ok (new "iteration_started" (once_event_filter 3) (Some "ITERATION_STARTED")).
Proof. reflexivity. Qed.

(** C2: an event made with [every = n], [n > 1], has a filter that answers
    true on exactly the counters that [n] divides, that is those with
    [counter % n == 0]; with [every = 1] the event made is the unfiltered one
    of the same kind, whose filter answers true on every engine and
    counter. *)
Theorem every_filter_divisibility self (nm : string) (n : Z) :
  _name_ self = Some nm -> 0 < n ->
  exists e,
    __call__ self VNone (VInt n) VNone = Ok e
    /\ _name_ e = Some nm /\ _value_ e = _value_ self
    /\ (1 < n -> forall engine counter,
          call_filter (filter e) engine counter
          = Ok (VBool (counter mod n =? 0))
          /\ ((counter mod n =? 0) = true <-> (n | counter)))
    /\ (n = 1 ->
          e = new (_value_ self) VNone (Some nm)
          /\ filter e = default_event_filter
          /\ forall engine counter,
               call_filter (filter e) engine counter = Ok (VBool true)).
Proof.
  intros Hn Hpos. unfold __call__, name, value. cbn.
  rewrite (proj2 (Z.ltb_lt 0 n) Hpos), Hn. cbn.
  destruct (n =? 1) eqn:H1; cbn.
  - apply Z.eqb_eq in H1.
    eexists; split; [reflexivity|]. split; [reflexivity|].
    split; [reflexivity|]. split; [lia|]. intros _. repeat split.
  - apply Z.eqb_neq in H1.
    eexists; split; [reflexivity|]. split; [reflexivity|].
    split; [reflexivity|]. split; [|lia]. intros Hgt engine counter. split.
    + cbn. destruct (n =? 0) eqn:H0; [apply Z.eqb_eq in H0; lia|].
      destruct (counter mod n =? 0); reflexivity.
    + rewrite Z.eqb_eq. apply Z.mod_divide. lia.
Qed.

(** C3: an event made with [once = m] has a filter that answers true on the
    counter [m] and false on every other counter, smaller or larger. *)
Theorem once_filter_exact self (nm : string) (m : Z) :
  _name_ self = Some nm -> 0 < m ->
  exists e,
    __call__ self VNone VNone (VInt m) = Ok e
    /\ _name_ e = Some nm /\ _value_ e = _value_ self
    /\ forall engine counter,
         call_filter (filter e) engine counter = Ok (VBool (counter =? m))
         /\ (counter = m -> (counter =? m) = true)
         /\ (counter < m \/ m < counter -> (counter =? m) = false).
Proof.
  intros Hn Hpos. unfold __call__, name, value. cbn.
  rewrite (proj2 (Z.ltb_lt 0 m) Hpos), Hn. cbn.
  eexists; split; [reflexivity|]. repeat split; cbn.
  - destruct (counter =? m); reflexivity.
  - intros ->. apply Z.eqb_refl.
  - intros Hne. apply Z.eqb_neq. lia.
Qed.

(** C8: comparing an event with a value that is neither an event nor a string
    raises [NotImplementedError] instead of answering false; comparing it
    with a string answers whether the string is the event's name. *)
Theorem eq_with_other_values :
  (forall self other,
      (forall e, other <> VEvent e) -> (forall s, other <> VStr s) ->
      __eq__ self other = raise NotImplementedError "")
  /\ (forall self (nm s : string),
        _name_ self = Some nm ->
        __eq__ self (VStr s) = Ok (bool_decide (nm = s))).
Proof.
  split.
  - intros self other He Hs. destruct other; try reflexivity.
    + now destruct (Hs s).
    + now destruct (He e).
  - intros self nm s Hn. unfold __eq__, name. rewrite Hn. cbn.
    f_equal. destruct (String.eqb_spec nm s) as [->|Hne].
    + now rewrite bool_decide_eq_true_2.
    + now rewrite bool_decide_eq_false_2.
Qed.

(** C10: a member of [Events] equals a string exactly when the string is the
    member's name; so [Events.ITERATION_STARTED] equals ["ITERATION_STARTED"]
    and not its value ["iteration_started"], and no member equals its
    value. *)
Theorem member_eq_string_is_name_test :
  (forall (k : Events.member) (s : string),
      __eq__ (Events.get k : event Engine) (VStr s)
      = Ok (bool_decide (s = Events.member_name k)))
  /\ __eq__ (Events.get Events.ITERATION_STARTED : event Engine)
       (VStr "ITERATION_STARTED") = Ok true
  /\ __eq__ (Events.get Events.ITERATION_STARTED : event Engine)
       (VStr "iteration_started") = Ok false
  /\ (forall k : Events.member,
        __eq__ (Events.get k : event Engine) (VStr (Events.member_value k))
        = Ok false).
Proof.
  split; [|split; [reflexivity|split; [reflexivity|]]].
  - intros k s. unfold __eq__, name. cbn. f_equal.
    destruct (String.eqb_spec (Events.member_name k) s) as [->|Hne].
    + now rewrite bool_decide_eq_true_2.
    + rewrite bool_decide_eq_false_2; [reflexivity|congruence].
  - intros k. destruct k; reflexivity.
Qed.

End CallProperties.

(** ** Equality, hash and the dict of the state *)

Section IdentityProperties.
Context {Engine : Type} `{StrHash}.
Implicit Types (self e key : event Engine).

Import CallableEventWithFilter.

Local Abbreviation event_to_attr := (State.event_to_attr (Engine:=Engine)).

(** C4: two variants of one kind, whatever their filters, are equal and have
    the same hash; two events of different kinds are never equal, whatever
    their filters. *)
Theorem variants_equal_by_kind (x y : Events.member) (e1 e2 : event Engine) :
  variant_of x e1 -> variant_of y e2 ->
  (x = y ->
     __eq__ e1 (VEvent e2) = Ok true
     /\ __hash__ e1 = __hash__ e2
     /\ __hash__ e1 = Ok (str_hash (Events.member_name x)))
  /\ (x <> y -> __eq__ e1 (VEvent e2) = Ok false).
Proof.
  intros [Hn1 _]%variant_of_identity [Hn2 _]%variant_of_identity.
  unfold __eq__, __hash__, name. rewrite Hn1, Hn2. cbn. split.
  - intros ->. rewrite String.eqb_refl. repeat split.
  - intros Hne. f_equal. apply String.eqb_neq.
    intros Heq. apply Hne, member_name_inj, Heq.
Qed.

(** The search of a dict whose keys all have a name finds, for a key named
    [n], the first entry whose key is named [n]: an entry whose hash collides
    with the one of [n] is then set aside by [__eq__]. *)
Lemma dict_find_by_name (entries : list (event Engine * string)) key
    (n : string) :
  _name_ key = Some n ->
  Forall (fun kv => is_Some (_name_ kv.1)) entries ->
  State.dict_find entries key (str_hash n) = Ok (attr_of_name entries n).
Proof.
  intros Hkey. induction 1 as [|[k v] rest [m Hm] _ IH]; [reflexivity|].
  cbn in Hm. cbn. unfold __hash__, __eq__, name. rewrite Hm, Hkey. cbn.
  destruct (decide (Some m = Some n)) as [[= ->]|Hne].
  - rewrite Z.eqb_refl, String.eqb_refl. reflexivity.
  - assert ((m =? n)%string = false) as Hmn
      by (apply String.eqb_neq; congruence).
    rewrite Hmn. destruct (str_hash m =? str_hash n); exact IH.
Qed.

Lemma event_to_attr_named :
  Forall (fun kv : event Engine * string => is_Some (_name_ kv.1))
    event_to_attr.
Proof. repeat constructor; cbn; eauto. Qed.

(** The value read for an event depends on the event's name alone. *)
Lemma get_event_attrib_value_by_name (self : gmap string (pyval Engine)) key
    (n : string) :
  _name_ key = Some n ->
  State.get_event_attrib_value self key
  = match attr_of_name event_to_attr n with
    | Some attr => State.getattr self attr
    | None => Err (Exception RuntimeError "Unknown event name '{}'"
                     [Str_of (VEvent key)])
    end.
Proof.
  intros Hkey.
  unfold State.get_event_attrib_value, State.dict_contains, State.dict_getitem.
  assert (__hash__ key = Ok (str_hash n)) as -> by (unfold __hash__; now rewrite Hkey).
  cbn [mbind result_bind].
  rewrite (dict_find_by_name _ _ _ Hkey event_to_attr_named).
  destruct (attr_of_name event_to_attr n); reflexivity.
Qed.

Lemma exception_raised_not_a_key :
  (Events.get Events.EXCEPTION_RAISED : event Engine)
  ∉ (fst <$> event_to_attr).
Proof.
  cbn. intros Hin.
  repeat (apply elem_of_cons in Hin as [Hin|Hin]; [discriminate Hin|]).
  now apply elem_of_nil in Hin.
Qed.

Lemma key_has_attr (k : Events.member) :
  (Events.get k : event Engine) ∈ (fst <$> event_to_attr) ->
  exists attr,
    attr_of_name event_to_attr (Events.member_name k)
    = Some attr.
Proof.
  destruct k; try (intros _; eexists; reflexivity).
  intros Hin. now apply exception_raised_not_a_key in Hin.
Qed.

(** C6: for [EPOCH_STARTED] the method returns the current value of the
    attribute [epoch]; for [EXCEPTION_RAISED], and for any member that is not
    a key of [event_to_attr], it raises the [RuntimeError] of an unknown
    event. *)
Theorem get_event_attrib_value_epoch_or_unknown
    (self : gmap string (pyval Engine)) :
  (forall v, self !! "epoch"%string = Some v ->
     State.get_event_attrib_value self (Events.get Events.EPOCH_STARTED) = Ok v)
  /\ State.get_event_attrib_value self (Events.get Events.EXCEPTION_RAISED)
     = Err (Exception RuntimeError "Unknown event name '{}'"
              [Str_of (VEvent (Events.get Events.EXCEPTION_RAISED))])
  /\ (forall k : Events.member,
        (Events.get k : event Engine) ∉ (fst <$> event_to_attr) ->
        State.get_event_attrib_value self (Events.get k)
        = Err (Exception RuntimeError "Unknown event name '{}'"
                 [Str_of (VEvent (Events.get k))])).
Proof.
  split; [|split].
  - intros v Hv.
    rewrite (get_event_attrib_value_by_name self
               (Events.get Events.EPOCH_STARTED) "EPOCH_STARTED" eq_refl).
    assert (attr_of_name event_to_attr "EPOCH_STARTED" = Some "epoch"%string)
      as -> by reflexivity.
    unfold State.getattr. now rewrite Hv.
  - now rewrite (get_event_attrib_value_by_name self
                   (Events.get Events.EXCEPTION_RAISED) "EXCEPTION_RAISED"
                   eq_refl).
  - intros k Hk.
    rewrite (get_event_attrib_value_by_name self (Events.get k)
               (Events.member_name k) eq_refl).
    destruct k; try reflexivity; exfalso; apply Hk; cbn;
      repeat first [apply list_elem_of_here | apply list_elem_of_further].
Qed.

(** C9: for a kind that is a key of [event_to_attr], the method returns for
    every variant of the kind, whatever its filter, what it returns for the
    member itself: the search goes by the name, and the attribute read is
    the one the dict gives to that name. *)
Theorem filtered_variant_reads_same_attribute
    (self : gmap string (pyval Engine)) (k : Events.member) e :
  variant_of k e ->
  (Events.get k : event Engine) ∈ (fst <$> event_to_attr) ->
  State.get_event_attrib_value self e
  = State.get_event_attrib_value self (Events.get k)
  /\ exists attr,
       attr_of_name event_to_attr (Events.member_name k)
       = Some attr
       /\ State.get_event_attrib_value self e = State.getattr self attr.
Proof.
  intros [Hn _]%variant_of_identity [attr Hattr]%key_has_attr.
  rewrite (get_event_attrib_value_by_name self e _ Hn).
  rewrite (get_event_attrib_value_by_name self (Events.get k) _ eq_refl).
  rewrite Hattr. eauto.
Qed.

End IdentityProperties.

(** ** Event lists *)

Section EventsListProperties.
Context {Engine : Type}.
Implicit Types (A B C e : event Engine) (w : world Engine) (l : addr).

Lemma bind_run {S X Y} (m : ST Engine S X) (k : X -> ST Engine S Y) (s : S) :
  (m ≫= k) s
  = match m s with
    | (Ok a, s') => k a s'
    | (Err x, s') => (Err x, s')
    end.
Proof. reflexivity. Qed.

Lemma events_after_insert l (es : list (event Engine)) w :
  EventsList._events (set_events_lists (insert l es) w) l = es.
Proof. unfold EventsList._events. cbn. now rewrite lookup_insert_eq. Qed.

Lemma or_event_run l e w :
  EventsList.__or__ l (VEvent e) w
  = (Ok l, set_events_lists (insert l (EventsList._events w l ++ [e])) w).
Proof. reflexivity. Qed.

(** Both classes of events define [__or__] with the same body. *)
Lemma event_or_any_class A (other : pyval Engine) :
  event_or A other = CallableEventWithFilter.__or__ A other.
Proof. unfold event_or. destruct (cls A); reflexivity. Qed.

(** [A | B] allocates a list and leaves [A] and [B] in it. *)
Lemma or_two_events A B w :
  exists l w',
    event_or A (VEvent B) w = (Ok l, w')
    /\ EventsList._events w' l = [A; B].
Proof.
  rewrite event_or_any_class. unfold CallableEventWithFilter.__or__.
  rewrite bind_run. unfold EventsList.__init__.
  rewrite bind_run, or_event_run, or_event_run, !events_after_insert.
  eexists _, _. split; [reflexivity|]. apply events_after_insert.
Qed.

(** C7: for any events [A], [B] and [C], members or variants,
    [A | B | C] is a list of length 3 whose iteration and whose reads at the
    indices 0, 1 and 2 give [A], [B], [C] in this order; and appending a
    value that is not an event raises [ValueError]. *)
Theorem or_chain_keeps_insertion_order :
  (forall A B C w,
     exists l w',
       (l ← event_or A (VEvent B); EventsList.__or__ l (VEvent C)) w = (Ok l, w')
       /\ EventsList.__len__ l w' = (Ok 3, w')
       /\ EventsList.__iter__ l w' = (Ok [VEvent A; VEvent B; VEvent C], w')
       /\ EventsList.__getitem__ l 0 w' = (Ok (VEvent A), w')
       /\ EventsList.__getitem__ l 1 w' = (Ok (VEvent B), w')
       /\ EventsList.__getitem__ l 2 w' = (Ok (VEvent C), w'))
  /\ (forall l (v : pyval Engine) w,
        (forall e, v <> VEvent e) ->
        EventsList._append l v w
        = (Err (Exception ValueError
             "Argument event should be Events or CallableEventWithFilter, got: {}"
             [Type_of v]), w)
        /\ EventsList.__or__ l v w
           = (Err (Exception ValueError
                "Argument event should be Events or CallableEventWithFilter, got: {}"
                [Type_of v]), w)).
Proof.
  split.
  - intros A B C w.
    destruct (or_two_events A B w) as (l & w1 & Hor & Hev).
    exists l, (set_events_lists (insert l ([A; B] ++ [C])) w1).
    assert (EventsList._events
              (set_events_lists (insert l ([A; B] ++ [C])) w1) l = [A; B; C])
      as Hev3 by apply events_after_insert.
    split.
    { rewrite bind_run, Hor, or_event_run, Hev. reflexivity. }
    unfold EventsList.__len__, EventsList.__iter__, EventsList.__getitem__.
    rewrite Hev3. repeat split.
  - intros l v w Hv.
    assert (EventsList._append l v w
            = (Err (Exception ValueError
                 "Argument event should be Events or CallableEventWithFilter, got: {}"
                 [Type_of v]), w)) as Happ.
    { destruct v; try reflexivity. now destruct (Hv e). }
    split; [exact Happ|].
    unfold EventsList.__or__. rewrite bind_run, Happ. reflexivity.
Qed.

End EventsListProperties.

(** ** Removable handles *)

Section HandleProperties.
Context {Engine : Type} `{EngineOps Engine}.
Implicit Types (self : RemovableEventHandle.t Engine) (w : world Engine)
  (h : addr) (e : pyval Engine) (es removed : list (pyval Engine))
  (eng : Engine) (log tr : list (engine_call Engine)).

Import RemovableEventHandle.

(** One turn of the loop, and the loop from its second turn on. *)
Lemma loop_cons h e es eng log :
  for_each (e :: es) (remove_if_present h) (eng, log)
  = if has_event_handler eng h e then
      match remove_event_handler h e eng with
      | (Ok _, eng') =>
          for_each es (remove_if_present h)
            (eng', log ++ [Has h e true; Remove h e])
      | (Err x, eng') => (Err x, (eng', log ++ [Has h e true; Remove h e]))
      end
    else for_each es (remove_if_present h) (eng, log ++ [Has h e false]).
Proof.
  cbn [for_each]. rewrite bind_run. unfold remove_if_present at 1.
  destruct (has_event_handler eng h e); [|reflexivity].
  destruct (remove_event_handler h e eng) as [[[]|x] eng'];
    now rewrite <- app_assoc.
Qed.

(** The loop is the guarded removal of the specification: it makes the calls
    of one, ends as it ends and leaves the engine as it leaves it. *)
Lemma loop_is_guarded_removal h es : forall eng log,
  exists tr r eng',
    for_each es (remove_if_present h) (eng, log) = (r, (eng', log ++ tr))
    /\ guarded_removal h eng es tr r eng'.
Proof.
  induction es as [|e es IH]; intros eng log.
  - exists [], (Ok tt), eng. split; [now rewrite app_nil_r|constructor].
  - rewrite loop_cons. destruct (has_event_handler eng h e) eqn:Hhas.
    + destruct (remove_event_handler h e eng) as [[[]|x] eng1] eqn:Hrem.
      * destruct (IH eng1 (log ++ [Has h e true; Remove h e]))
          as (tr & r & eng' & Hrun & Hg).
        exists (Has h e true :: Remove h e :: tr), r, eng'. split.
        -- rewrite Hrun, <- app_assoc. reflexivity.
        -- now apply (guarded_removed _ _ _ _ eng1).
      * exists [Has h e true; Remove h e], (Err x), eng1.
        split; [reflexivity|]. now apply guarded_failed.
    + destruct (IH eng (log ++ [Has h e false]))
        as (tr & r & eng' & Hrun & Hg).
      exists (Has h e false :: tr), r, eng'. split.
      * rewrite Hrun, <- app_assoc. reflexivity.
      * now apply guarded_absent.
Qed.

(** A guarded removal that returned, followed by the loop on further events,
    is the loop on all of them. *)
Lemma loop_after_guarded_removal h es1 tr1 eng eng1 :
  guarded_removal h eng es1 tr1 (Ok tt) eng1 ->
  forall es2 log,
    for_each (es1 ++ es2) (remove_if_present h) (eng, log)
    = for_each es2 (remove_if_present h) (eng1, log ++ tr1).
Proof.
  intros Hg. remember (Ok tt) as r eqn:Hr.
  induction Hg as [eng|eng e es tr r eng' Hhas _ IH
                  |eng e es eng2 tr r eng' Hhas Hrem _ IH
                  |eng e es x eng2 Hhas Hrem]; intros es2 log.
  - now rewrite app_nil_r.
  - cbn [app]. rewrite loop_cons, Hhas, (IH Hr), <- app_assoc. reflexivity.
  - cbn [app]. rewrite loop_cons, Hhas, Hrem, (IH Hr), <- app_assoc.
    reflexivity.
  - discriminate Hr.
Qed.

(** The removals of a guarded removal are its queries answered true: a
    removal is called for an event when, and only when, the engine has just
    answered that it has the handler for it. *)
Lemma guarded_removal_calls h eng es tr r eng' :
  guarded_removal h eng es tr r eng' ->
  omap removal_of tr = omap answered_true tr.
Proof.
  induction 1 as [| ? ? ? ? ? ? _ _ IH | ? ? ? ? ? ? ? _ _ _ IH |];
    cbn; [reflexivity|exact IH|now rewrite IH|reflexivity].
Qed.

(** The events asked about are the first events of the list, in their order,
    and all of them when the removal returned. *)
Lemma guarded_removal_queried h eng es tr r eng' :
  guarded_removal h eng es tr r eng' ->
  omap queried tr `prefix_of` es /\ (r = Ok tt -> omap queried tr = es).
Proof.
  induction 1 as [| ? ? ? ? ? ? _ _ [IHp IHa] | ? ? ? ? ? ? ? _ _ _ [IHp IHa] |];
    cbn.
  - split; [apply prefix_nil|reflexivity].
  - split; [now apply prefix_cons|]. intros Hr. now rewrite IHa.
  - split; [now apply prefix_cons|]. intros Hr. now rewrite IHa.
  - split; [apply prefix_cons, prefix_nil|discriminate].
Qed.

(** The events removed are events of the list, each event of the list once
    at most, in the order of the list. *)
Lemma guarded_removal_removed h eng es tr r eng' :
  guarded_removal h eng es tr r eng' ->
  omap removal_of tr = (fun e => (h, e)) <$> (omap removal_of tr).*2
  /\ (omap removal_of tr).*2 `sublist_of` es.
Proof.
  induction 1 as [| ? ? ? ? ? ? _ _ [IHe IHs] | ? ? ? ? ? ? ? _ _ _ [IHe IHs] |];
    cbn.
  - split; constructor.
  - split; [exact IHe|now apply sublist_cons].
  - split; [now rewrite <- IHe|now apply sublist_skip].
  - split; [reflexivity|apply sublist_skip, sublist_nil_l].
Qed.

(** When the engine has the handler for none of the events, every query is
    answered false, nothing is removed and the engine stays as it is. *)
Lemma guarded_removal_nothing_present h eng es tr r eng' :
  guarded_removal h eng es tr r eng' ->
  (forall e, e ∈ es -> has_event_handler eng h e = false) ->
  r = Ok tt /\ eng' = eng /\ tr = (fun e => Has h e false) <$> es.
Proof.
  induction 1 as [| eng e es tr r eng' Hhas _ IH
                  | eng e es eng1 tr r eng' Hhas _ _ _
                  | eng e es x eng1 Hhas _]; intros Habs.
  - repeat split.
  - destruct IH as (-> & -> & ->).
    { intros e' He'. apply Habs. now apply list_elem_of_further. }
    repeat split.
  - rewrite (Habs e (list_elem_of_here _ _)) in Hhas. discriminate Hhas.
  - rewrite (Habs e (list_elem_of_here _ _)) in Hhas. discriminate Hhas.
Qed.

Section WithLaws.
Context `{!EngineLaws Engine}.

(** What the engine does not report stays unreported through a removal. *)
Lemma guarded_removal_keeps_absent h eng es tr r eng' h' e' :
  guarded_removal h eng es tr r eng' ->
  has_event_handler eng h' e' = false ->
  has_event_handler eng' h' e' = false.
Proof.
  induction 1 as [| ? ? ? ? ? ? _ _ IH
                  | eng e es eng1 tr r eng' _ Hrem _ IH
                  | eng e es x eng1 _ Hrem]; intros Habs.
  - exact Habs.
  - exact (IH Habs).
  - apply IH. exact (removal_registers_nothing _ _ _ _ _ _ _ Hrem Habs).
  - exact (removal_registers_nothing _ _ _ _ _ _ _ Hrem Habs).
Qed.

(** An event that the engine does not report at the start is not removed. *)
Lemma guarded_removal_skips_absent h eng es tr r eng' e' :
  guarded_removal h eng es tr r eng' ->
  has_event_handler eng h e' = false ->
  e' ∉ (omap removal_of tr).*2.
Proof.
  induction 1 as [| ? ? ? ? ? ? _ _ IH
                  | eng e es eng1 tr r eng' Hhas Hrem _ IH
                  | eng e es x eng1 Hhas Hrem]; intros Habs; cbn.
  - apply not_elem_of_nil.
  - exact (IH Habs).
  - rewrite not_elem_of_cons. split; [intros ->; congruence|].
    apply IH. exact (removal_registers_nothing _ _ _ _ _ _ _ Hrem Habs).
  - rewrite not_elem_of_cons. split; [intros ->; congruence|].
    apply not_elem_of_nil.
Qed.

(** After a removal that returned, the engine reports the handler for none
    of the events. *)
Lemma guarded_removal_leaves_nothing h eng es tr eng' :
  guarded_removal h eng es tr (Ok tt) eng' ->
  forall e, e ∈ es -> has_event_handler eng' h e = false.
Proof.
  intros Hg. remember (Ok tt) as r eqn:Hr.
  induction Hg as [eng|eng e es tr r eng' Hhas Hg IH
                  |eng e es eng1 tr r eng' Hhas Hrem Hg IH
                  |eng e es x eng1 Hhas Hrem]; intros e' He'.
  - now apply elem_of_nil in He'.
  - apply elem_of_cons in He' as [->|He']; [|exact (IH Hr _ He')].
    exact (guarded_removal_keeps_absent _ _ _ _ _ _ _ _ Hg Hhas).
  - apply elem_of_cons in He' as [->|He']; [|exact (IH Hr _ He')].
    apply (guarded_removal_keeps_absent _ _ _ _ _ _ _ _ Hg).
    exact (removed_is_absent _ _ _ _ Hrem).
  - discriminate Hr.
Qed.

End WithLaws.

Lemma remove_dead self w :
  handler_ref w (handler self) = None \/ engine_ref w (engine self) = None ->
  remove self w = (Ok tt, w).
Proof.
  unfold remove. intros [-> | ->]; [reflexivity|].
  destruct (handler_ref w (handler self)); reflexivity.
Qed.

(** With both referents alive, [remove] runs the guarded removal over the
    members and stores the engine's state back. *)
Lemma remove_live self w h eng :
  handler_ref w (handler self) = Some h ->
  engine_ref w (engine self) = Some eng ->
  remove self w
  = let '(r, (eng', log')) :=
      for_each (members w self) (remove_if_present h) (eng, calls w) in
    (r, World (events_lists w) (<[engine self := eng']> (engines w))
          (handlers w) log').
Proof.
  unfold remove, members. intros -> ->.
  destruct (event_name self); try reflexivity;
    cbn [for_each]; rewrite bind_run;
    match goal with
    | |- context [remove_if_present h ?e ?s] =>
        destruct (remove_if_present h e s) as [[[]|x] [eng' log']]
    end; reflexivity.
Qed.

(** [remove] with both referents alive, as a guarded removal. *)
Lemma remove_is_guarded_removal self w h eng :
  handler_ref w (handler self) = Some h ->
  engine_ref w (engine self) = Some eng ->
  exists tr r eng',
    remove self w
    = (r, World (events_lists w) (<[engine self := eng']> (engines w))
            (handlers w) (calls w ++ tr))
    /\ guarded_removal h eng (members w self) tr r eng'.
Proof.
  intros Hh Heng. rewrite (remove_live _ _ _ _ Hh Heng).
  destruct (loop_is_guarded_removal h (members w self) eng (calls w))
    as (tr & r & eng' & -> & Hg).
  now exists tr, r, eng'.
Qed.

Lemma handler_ref_some w (a h : addr) :
  handler_ref w a = Some h -> h = a.
Proof.
  unfold handler_ref. destruct (_ || _); [|discriminate].
  now intros [= <-].
Qed.

(** C5: [remove] does nothing, and raises nothing, when the handler or the
    engine is gone: it asks the engine nothing and leaves the store as it is.
    Otherwise it is the guarded removal over the events of the handle: it
    asks the engine about the events in their order, on the state the engine
    is in at that turn, and calls [remove_event_handler] for an event when,
    and only when, the answer was true; so the removals are the queries
    answered true, on events of the handle, each once at most; when every
    answer is false nothing is removed and the engine stays as it is.  For
    an engine that reports a removed handler no more and whose removals
    register nothing, an event not reported at the start is not removed, and
    after a [remove] that returned a second [remove] removes nothing,
    whether the handler is still alive or not. *)
Theorem remove_guarded_and_idempotent self w :
  (handler_ref w (handler self) = None \/ engine_ref w (engine self) = None ->
   remove self w = (Ok tt, w))
  /\ (forall h eng,
        handler_ref w (handler self) = Some h ->
        engine_ref w (engine self) = Some eng ->
        exists tr r eng',
          remove self w
          = (r, World (events_lists w) (<[engine self := eng']> (engines w))
                  (handlers w) (calls w ++ tr))
          /\ guarded_removal h eng (members w self) tr r eng'
          /\ omap removal_of tr = omap answered_true tr
          /\ omap queried tr `prefix_of` members w self
          /\ (r = Ok tt -> omap queried tr = members w self)
          /\ (exists removed,
                omap removal_of tr = (fun e => (h, e)) <$> removed
                /\ removed `sublist_of` members w self
                /\ (EngineLaws Engine ->
                    forall e, has_event_handler eng h e = false ->
                              e ∉ removed))
          /\ ((forall e, e ∈ members w self ->
                         has_event_handler eng h e = false) ->
              r = Ok tt /\ eng' = eng
              /\ tr = (fun e => Has h e false) <$> members w self)
          /\ (EngineLaws Engine -> r = Ok tt ->
              forall w2,
                events_lists w2 = events_lists w ->
                engines w2 ⊆ <[engine self := eng']> (engines w) ->
                exists tr2,
                  remove self w2
                  = (Ok tt, World (events_lists w2) (engines w2)
                              (handlers w2) (calls w2 ++ tr2))
                  /\ omap removal_of tr2 = []))
  .
Proof.
  split; [apply remove_dead|].
  intros h eng Hh Heng.
  destruct (remove_is_guarded_removal _ _ _ _ Hh Heng)
    as (tr & r & eng' & Hrun & Hg).
  exists tr, r, eng'. split; [exact Hrun|]. split; [exact Hg|].
  split; [exact (guarded_removal_calls _ _ _ _ _ _ Hg)|].
  destruct (guarded_removal_queried _ _ _ _ _ _ Hg) as [Hpre Hall].
  split; [exact Hpre|]. split; [exact Hall|].
  destruct (guarded_removal_removed _ _ _ _ _ _ Hg) as [Hrem Hsub].
  split.
  { exists (omap removal_of tr).*2. split; [exact Hrem|]. split; [exact Hsub|].
    intros Hlaws e Habs.
    exact (guarded_removal_skips_absent _ _ _ _ _ _ _ Hg Habs). }
  split; [exact (guarded_removal_nothing_present _ _ _ _ _ _ Hg)|].
  intros Hlaws -> w2 Hlists Hengines.
  destruct (handler_ref w2 (handler self)) as [h2|] eqn:Hh2.
  2:{ exists []. rewrite remove_dead by now left.
      split; [|reflexivity]. destruct w2. cbn. now rewrite app_nil_r. }
  destruct (engine_ref w2 (engine self)) as [eng2|] eqn:Heng2.
  2:{ exists []. rewrite remove_dead by now right.
      split; [|reflexivity]. destruct w2. cbn. now rewrite app_nil_r. }
  assert (h2 = h) as ->.
  { apply handler_ref_some in Hh2. apply handler_ref_some in Hh. congruence. }
  assert (eng2 = eng') as ->.
  { unfold engine_ref in Heng2.
    pose proof (lookup_weaken _ _ _ _ Heng2 Hengines) as Hlook.
    rewrite lookup_insert_eq in Hlook. congruence. }
  assert (members w2 self = members w self) as Hmem
    by (unfold members, EventsList._events; now rewrite Hlists).
  destruct (remove_is_guarded_removal _ _ _ _ Hh2 Heng2)
    as (tr2 & r2 & eng3 & Hrun2 & Hg2).
  rewrite Hmem in Hg2.
  destruct (guarded_removal_nothing_present _ _ _ _ _ _ Hg2
              (guarded_removal_leaves_nothing _ _ _ _ _ Hg))
    as (-> & -> & ->).
  exists ((fun e => Has h e false) <$> members w self). split.
  - rewrite Hrun2. unfold engine_ref in Heng2.
    now rewrite (insert_id _ _ _ Heng2).
  - clear. induction (members w self) as [|e es IH]; [reflexivity|exact IH].
Qed.

End HandleProperties.

(** ** The small engine keeps the laws *)

Section ListEngineProperties.

#[global] Instance list_engine_laws : EngineLaws ListEngine.t.
Proof.
  split.
  - intros eng h e eng'. cbn. unfold ListEngine.remove, ListEngine.has.
    destruct (ListEngine.key e) as [n|]; [|discriminate].
    case_bool_decide; [|discriminate]. intros [= <-]. cbn.
    apply bool_decide_eq_false_2. rewrite list_elem_of_filter. tauto.
  - intros eng h e r eng' h' e'. cbn. unfold ListEngine.remove, ListEngine.has.
    destruct (ListEngine.key e') as [n'|]; [|reflexivity].
    intros Hrem Habs. apply bool_decide_eq_false_1 in Habs.
    apply bool_decide_eq_false_2.
    destruct (ListEngine.key e) as [n|]; [|now injection Hrem as _ <-].
    case_bool_decide; injection Hrem as _ <-; [|exact Habs].
    cbn. rewrite list_elem_of_filter. tauto.
Qed.

End ListEngineProperties.

(** ** The statements on concrete inputs *)

Section Witnesses.

Import CallableEventWithFilter.

(** [ITERATION_STARTED(every=3)] fires on 6 and not on 7. *)
Lemma every_filter_divisibility_witness :
  exists e : event unit,
    __call__ (Events.get Events.ITERATION_STARTED) VNone (VInt 3) VNone = Ok e
    /\ call_filter (filter e) tt 6 = Ok (VBool true)
    /\ call_filter (filter e) tt 7 = Ok (VBool false).
Proof.
  destruct (every_filter_divisibility
              (Events.get Events.ITERATION_STARTED : event unit)
              "ITERATION_STARTED" 3 eq_refl ltac:(lia))
    as (e & Hcall & _ & _ & Hevery & _).
  exists e. split; [exact Hcall|].
  split; [exact (proj1 (Hevery ltac:(lia) tt 6))
         |exact (proj1 (Hevery ltac:(lia) tt 7))].
Defined.

(** [ITERATION_STARTED(once=50)] fires on 50, not on 49 and not on 51. *)
Lemma once_filter_exact_witness :
  exists e : event unit,
    __call__ (Events.get Events.ITERATION_STARTED) VNone VNone (VInt 50) = Ok e
    /\ call_filter (filter e) tt 50 = Ok (VBool true)
    /\ call_filter (filter e) tt 49 = Ok (VBool false)
    /\ call_filter (filter e) tt 51 = Ok (VBool false).
Proof.
  destruct (once_filter_exact
              (Events.get Events.ITERATION_STARTED : event unit)
              "ITERATION_STARTED" 50 eq_refl ltac:(lia))
    as (e & Hcall & _ & _ & Honce).
  exists e. split; [exact Hcall|].
  split; [exact (proj1 (Honce tt 50))|].
  split; [exact (proj1 (Honce tt 49))|exact (proj1 (Honce tt 51))].
Defined.

Lemma started_every_3_variant :
  variant_of Events.STARTED Sample.started_every_3.
Proof.
  apply (variant_call _ (Events.get Events.STARTED) VNone (VInt 3) VNone);
    [constructor|reflexivity].
Defined.

Lemma started_once_5_variant :
  variant_of Events.STARTED Sample.started_once_5.
Proof.
  apply (variant_call _ (Events.get Events.STARTED) VNone VNone (VInt 5));
    [constructor|reflexivity].
Defined.

Lemma iteration_completed_every_10_variant :
  variant_of Events.ITERATION_COMPLETED Sample.iteration_completed_every_10.
Proof.
  apply (variant_call _ (Events.get Events.ITERATION_COMPLETED)
           VNone (VInt 10) VNone); [constructor|reflexivity].
Defined.

(** [STARTED(every=3)] and [STARTED(once=5)] are equal and hash alike;
    [STARTED(every=3)] and [COMPLETED] are not equal. *)
Lemma variants_equal_by_kind_witness :
  (__eq__ Sample.started_every_3 (VEvent Sample.started_once_5) = Ok true
   /\ __hash__ (H:=ListEngine.length_hash) Sample.started_every_3
      = __hash__ (H:=ListEngine.length_hash) Sample.started_once_5)
  /\ __eq__ Sample.started_every_3 (VEvent (Events.get Events.COMPLETED))
     = Ok false.
Proof.
  split.
  - destruct (proj1 (variants_equal_by_kind (H:=ListEngine.length_hash)
                       Events.STARTED Events.STARTED
                       Sample.started_every_3 Sample.started_once_5
                       started_every_3_variant started_once_5_variant)
                eq_refl) as (Heq & Hhash & _).
    split; [exact Heq|exact Hhash].
  - apply (proj2 (variants_equal_by_kind (H:=ListEngine.length_hash)
                    Events.STARTED Events.COMPLETED
                    Sample.started_every_3 (Events.get Events.COMPLETED)
                    started_every_3_variant (variant_member _))).
    discriminate.
Defined.

(** In its third epoch the state answers 3 for [EPOCH_STARTED] and raises for
    [EXCEPTION_RAISED]. *)
Lemma get_event_attrib_value_epoch_or_unknown_witness :
  State.get_event_attrib_value (H:=ListEngine.length_hash) Sample.state
    (Events.get Events.EPOCH_STARTED) = Ok (VInt 3)
  /\ State.get_event_attrib_value (H:=ListEngine.length_hash) Sample.state
       (Events.get Events.EXCEPTION_RAISED)
     = Err (Exception RuntimeError "Unknown event name '{}'"
              [Str_of (VEvent (Events.get Events.EXCEPTION_RAISED))]).
Proof.
  destruct (get_event_attrib_value_epoch_or_unknown
              (H:=ListEngine.length_hash) Sample.state)
    as (Hepoch & _ & Hunknown).
  split.
  - apply Hepoch. vm_compute. reflexivity.
  - apply (Hunknown Events.EXCEPTION_RAISED).
    apply exception_raised_not_a_key.
Defined.

(** [ITERATION_COMPLETED(every=10)] reads the same attribute as
    [ITERATION_COMPLETED]. *)
Lemma filtered_variant_reads_same_attribute_witness :
  State.get_event_attrib_value (H:=ListEngine.length_hash) Sample.state
    Sample.iteration_completed_every_10
  = State.get_event_attrib_value (H:=ListEngine.length_hash) Sample.state
      (Events.get Events.ITERATION_COMPLETED).
Proof.
  apply (filtered_variant_reads_same_attribute (H:=ListEngine.length_hash)
           Sample.state Events.ITERATION_COMPLETED
           Sample.iteration_completed_every_10
           iteration_completed_every_10_variant).
  cbn. do 3 apply list_elem_of_further. apply list_elem_of_here.
Defined.

(** Appending the integer 5 to a list raises. *)
Lemma or_chain_keeps_insertion_order_witness :
  EventsList._append 1%nat (VInt 5) Sample.world0
  = (Err (Exception ValueError
       "Argument event should be Events or CallableEventWithFilter, got: {}"
       [Type_of (VInt 5)]), Sample.world0).
Proof.
  apply (proj2 (or_chain_keeps_insertion_order (Engine:=ListEngine.t))
           1%nat (VInt 5) Sample.world0).
  intros e. discriminate.
Defined.

(** Comparing [STARTED] with the integer 3 raises; comparing it with the
    string ["STARTED"] answers true. *)
Lemma eq_with_other_values_witness :
  __eq__ (Events.get Events.STARTED : event unit) (VInt 3)
  = raise NotImplementedError ""
  /\ __eq__ (Events.get Events.STARTED : event unit) (VStr "STARTED")
     = Ok (bool_decide ("STARTED"%string = "STARTED"%string)).
Proof.
  split.
  - apply (proj1 (eq_with_other_values (Engine:=unit))); intros; discriminate.
  - apply (proj2 (eq_with_other_values (Engine:=unit))
             (Events.get Events.STARTED) "STARTED" "STARTED").
    reflexivity.
Defined.

(** The handle of handler 7 asks about both members of the list and removes
    the handler for both; a second [remove] asks again and removes nothing;
    the handle of a handler that is gone does nothing.  Where the engine
    alone held the handler, the handler is gone after the first [remove] and
    the second does nothing at all. *)
Lemma remove_guarded_and_idempotent_witness :
  RemovableEventHandle.remove Sample.handle Sample.world0
  = (Ok tt, Sample.world1)
  /\ (exists tr2,
        RemovableEventHandle.remove Sample.handle Sample.world1
        = (Ok tt, World (events_lists Sample.world1) (engines Sample.world1)
                    (handlers Sample.world1) (calls Sample.world1 ++ tr2))
        /\ omap removal_of tr2 = [])
  /\ RemovableEventHandle.remove
       (RemovableEventHandle.__init__ (VEventsList 1%nat) 9%nat 0%nat)
       Sample.world0
     = (Ok tt, Sample.world0)
  /\ RemovableEventHandle.remove Cases.held_handle Cases.held_world
     = (Ok tt, Cases.held_world_after)
  /\ RemovableEventHandle.handler_ref Cases.held_world_after 7%nat = None
  /\ RemovableEventHandle.remove Cases.held_handle Cases.held_world_after
     = (Ok tt, Cases.held_world_after).
Proof.
  assert (RemovableEventHandle.remove Sample.handle Sample.world0
          = (Ok tt, Sample.world1)) as Hrun0 by (vm_compute; reflexivity).
  destruct (proj2 (remove_guarded_and_idempotent Sample.handle Sample.world0)
              7%nat Sample.engine eq_refl eq_refl)
    as (tr & r & eng' & Hrun & _ & _ & _ & _ & _ & _ & Hagain).
  pose proof (eq_trans (eq_sym Hrun0) Hrun) as Heq.
  pose proof (f_equal fst Heq) as Hr. cbn in Hr.
  assert (engines Sample.world1
          = <[RemovableEventHandle.engine Sample.handle := eng']>
              (engines Sample.world0)) as Heng
    by exact (f_equal (fun p => engines p.2) Heq).
  split; [exact Hrun0|].
  split.
  { apply (Hagain list_engine_laws (eq_sym Hr) Sample.world1); [reflexivity|].
    rewrite <- Heng. reflexivity. }
  split.
  { apply (proj1 (remove_guarded_and_idempotent
                    (RemovableEventHandle.__init__ (VEventsList 1%nat)
                       9%nat 0%nat)
                    Sample.world0)).
    left. vm_compute. reflexivity. }
  split; [vm_compute; reflexivity|].
  split; [vm_compute; reflexivity|].
  apply (proj1 (remove_guarded_and_idempotent Cases.held_handle
                  Cases.held_world_after)).
  left. vm_compute. reflexivity.
Defined.

End Witnesses.

(** * Further properties *)

(** ** Validation and results of a call *)

Section MoreCallProperties.
Context {Engine : Type}.
Implicit Types (self e : event Engine) (f v : pyval Engine).

Import CallableEventWithFilter.

(** X1: a value of [every] or of [once] that is not [None] and is not a
    positive integer is rejected with [ValueError]; the message for [once]
    also speaks of [every]. *)
Theorem call_rejects_bad_every_and_once self v :
  is_not_None v = true ->
  as_integral v = None \/ integral_value v <= 0 ->
  __call__ self VNone v VNone
  = raise ValueError "Argument every should be integer and greater than zero"
  /\ __call__ self VNone VNone v
     = raise ValueError "Argument every should be integer and positive".
Proof.
  intros Hv Hbad.
  assert (isinstance_Integral v && (0 <? integral_value v) = false) as Hcheck.
  { destruct Hbad as [Hnone|Hle].
    - unfold isinstance_Integral. now rewrite Hnone.
    - apply andb_false_intro2. apply Z.ltb_ge. exact Hle. }
  unfold __call__. cbn [is_not_None]. rewrite Hv, Hcheck. split; reflexivity.
Qed.

(** X2: a filter that is not [None] and not callable is rejected with
    [TypeError]. *)
Theorem call_rejects_non_callable self f :
  is_not_None f = true -> callable f = false ->
  __call__ self f VNone VNone
  = raise TypeError "Argument event_filter should be a callable".
Proof.
  intros Hf Hc. unfold __call__. cbn [is_not_None]. now rewrite Hf, Hc.
Qed.

Lemma new_filter_callable (val : string) f (n : option string) :
  f = VNone \/ callable f = true -> callable (filter (new val f n)) = true.
Proof. intros [->|Hc]; [reflexivity|]. destruct f; easy. Qed.

(** X3: the event a call returns is a plain [CallableEventWithFilter] whose
    filter is callable; so every variant of a member, the member included,
    carries a callable filter. *)
Theorem call_result_has_callable_filter :
  (forall self f every once e,
      __call__ self f every once = Ok e ->
      cls e = cls_CallableEventWithFilter /\ callable (filter e) = true)
  /\ (forall (k : Events.member) e,
        variant_of k e -> callable (filter e) = true).
Proof.
  assert (forall self f every once e,
             __call__ self f every once = Ok e ->
             cls e = cls_CallableEventWithFilter
             /\ callable (filter e) = true) as Hcall.
  { intros self f every once e. unfold __call__. intros Hcall.
    destruct (negb _); [discriminate Hcall|].
    destruct (is_not_None f && negb (callable f)) eqn:Hf;
      [discriminate Hcall|].
    destruct (is_not_None every && _); [discriminate Hcall|].
    destruct (is_not_None once && _); [discriminate Hcall|].
    apply bind_Ok_inv in Hcall as (_ & _ & Hcall).
    apply bind_Ok_inv in Hcall as (val & _ & Hcall).
    apply bind_Ok_inv in Hcall as (n & _ & [= <-]).
    split; [reflexivity|]. apply new_filter_callable.
    destruct (is_not_None once); [now right|].
    destruct (is_not_None every).
    - destruct (integral_value every =? 1); [now left|now right].
    - destruct f; cbn in Hf; try discriminate Hf; auto. }
  split; [exact Hcall|].
  intros k e Hvar. destruct Hvar as [|self f every once e _ He].
  - reflexivity.
  - exact (proj2 (Hcall _ _ _ _ _ He)).
Qed.

(** X4: a call does not look at the filter, nor at the class, of the event
    it is made on: two events with the same name and value give the same
    result.  Calling a filtered event again replaces its filter. *)
Theorem call_ignores_previous_filter (a b : event Engine) f every once :
  _name_ a = _name_ b -> _value_ a = _value_ b ->
  __call__ a f every once = __call__ b f every once.
Proof.
  intros Hn Hv. unfold __call__, name, value. now rewrite Hn, Hv.
Qed.

(** X5: used on its own, [every_event_filter(n)] gives for every [n] other
    than 0, negative ones too, a filter that returns [True] exactly on the
    multiples of [n]; the filter of [every_event_filter(0)] raises
    [ZeroDivisionError] at every counter. *)
Theorem every_event_filter_any_interval (n : Z) (engine : Engine)
    (counter : Z) :
  (n = 0 ->
   call_filter (every_event_filter n) engine counter
   = raise ZeroDivisionError "")
  /\ (n <> 0 ->
      exists b : bool,
        call_filter (every_event_filter n) engine counter = Ok (VBool b)
        /\ (b = true <-> (n | counter))).
Proof.
  split.
  - intros ->. reflexivity.
  - intros Hn. exists (counter mod n =? 0). split.
    + cbn. destruct (n =? 0) eqn:H0; [apply Z.eqb_eq in H0; contradiction|].
      destruct (counter mod n =? 0); reflexivity.
    + rewrite Z.eqb_eq. now apply Z.mod_divide.
Qed.

End MoreCallProperties.

Section MoreCallPropertiesWitnesses.

Import CallableEventWithFilter.

Lemma call_rejects_bad_every_and_once_witness :
  (__call__ (Events.get Events.STARTED : event unit) VNone (VInt 0) VNone
   = raise ValueError "Argument every should be integer and greater than zero"
   /\ __call__ (Events.get Events.STARTED : event unit) VNone VNone (VInt 0)
      = raise ValueError "Argument every should be integer and positive")
  /\ __call__ (Events.get Events.STARTED : event unit) VNone (VStr "3") VNone
     = raise ValueError "Argument every should be integer and greater than zero".
Proof.
  split.
  - apply (call_rejects_bad_every_and_once
             (Events.get Events.STARTED : event unit) (VInt 0));
      [reflexivity | right; cbn; lia].
  - apply (call_rejects_bad_every_and_once
             (Events.get Events.STARTED : event unit) (VStr "3"));
      [reflexivity | left; reflexivity].
Defined.

Lemma call_rejects_non_callable_witness :
  __call__ (Events.get Events.STARTED : event unit) (VInt 4) VNone VNone
  = raise TypeError "Argument event_filter should be a callable".
Proof.
  apply (call_rejects_non_callable
           (Events.get Events.STARTED : event unit) (VInt 4));
    reflexivity.
Defined.

Lemma call_result_has_callable_filter_witness :
  callable (filter Sample.started_every_3) = true.
Proof.
  apply (proj2 (call_result_has_callable_filter (Engine:=unit))
           Events.STARTED Sample.started_every_3).
  apply (variant_call _ (Events.get Events.STARTED) VNone (VInt 3) VNone);
    [constructor|reflexivity].
Defined.

Lemma call_ignores_previous_filter_witness :
  __call__ Sample.started_every_3 VNone VNone (VInt 5)
  = __call__ (Events.get Events.STARTED) VNone VNone (VInt 5).
Proof.
  apply (call_ignores_previous_filter
           Sample.started_every_3 (Events.get Events.STARTED)); reflexivity.
Defined.

Lemma every_event_filter_any_interval_witness :
  call_filter (every_event_filter 0) tt 5 = raise ZeroDivisionError ""
  /\ exists b : bool,
       call_filter (every_event_filter (-3)) tt 6 = Ok (VBool b)
       /\ (b = true <-> (-3 | 6)).
Proof.
  split.
  - apply (proj1 (every_event_filter_any_interval 0 tt 5)). reflexivity.
  - apply (proj2 (every_event_filter_any_interval (-3) tt 6)). discriminate.
Defined.

End MoreCallPropertiesWitnesses.

(** ** The counters at which a filter fires *)

Section FiringProperties.
Context {Engine : Type}.
Implicit Types (self e : event Engine) (engine : Engine).

Import CallableEventWithFilter.

Lemma div_step_multiple (n K : Z) :
  0 < n -> 0 <= K -> (1 + K) mod n = 0 ->
  (1 + K) / n = K / n + 1 /\ n * (1 + K / n) = 1 + K.
Proof.
  intros Hn HK Hm.
  assert (1 + K = n * ((1 + K) / n)) as Hdiv
    by (rewrite (Z.div_mod (1 + K) n) at 1 by lia; lia).
  assert (K / n = (1 + K) / n - 1) as Hq.
  { symmetry. apply (Z.div_unique K n _ (n - 1)); [lia|nia]. }
  lia.
Qed.

Lemma div_step_other (n K : Z) :
  0 < n -> 0 <= K -> (1 + K) mod n <> 0 -> (1 + K) / n = K / n.
Proof.
  intros Hn HK Hm.
  apply (Z.div_unique K n _ ((1 + K) mod n - 1)).
  - pose proof (Z.mod_pos_bound (1 + K) n Hn). lia.
  - pose proof (Z.div_mod (1 + K) n ltac:(lia)). lia.
Qed.

(** Among [1, ..., k] the multiples of [n] are [n, 2n, ...], as many as [n]
    goes into [k]. *)
Lemma multiples_upto (n : Z) (k : nat) :
  0 < n ->
  List.filter (fun c => c mod n =? 0) (seqZ 1 (Z.of_nat k))
  = (fun i => n * i) <$> seqZ 1 (Z.of_nat k / n).
Proof.
  intros Hn. induction k as [|k IH].
  - cbn. now rewrite Z.div_0_l by lia.
  - rewrite seqZ_S, List.filter_app, IH. cbn [List.filter].
    destruct ((1 + Z.of_nat k) mod n =? 0) eqn:Hm.
    + apply Z.eqb_eq in Hm.
      destruct (div_step_multiple n (Z.of_nat k) Hn ltac:(lia) Hm)
        as [Hq Hmul].
      replace (Z.of_nat (S k)) with (1 + Z.of_nat k) by lia. rewrite Hq.
      assert (0 <= Z.of_nat k / n) as Hpos by (apply Z.div_pos; lia).
      rewrite (seqZ_app 1 (Z.of_nat k / n) 1 Hpos ltac:(lia)), fmap_app.
      rewrite (seqZ_cons (1 + Z.of_nat k / n) 1) by lia.
      rewrite (seqZ_nil (Z.succ (1 + Z.of_nat k / n)) (Z.pred 1)) by lia.
      cbn [fmap list_fmap]. now rewrite Hmul.
    + apply Z.eqb_neq in Hm.
      replace (Z.of_nat (S k)) with (1 + Z.of_nat k) by lia.
      rewrite (div_step_other n (Z.of_nat k) Hn ltac:(lia) Hm).
      apply app_nil_r.
Qed.

Lemma filter_ext_bool {A} (p q : A -> bool) (l : list A) :
  (forall x, p x = q x) -> List.filter p l = List.filter q l.
Proof. intros Hpq. apply List.filter_ext. exact Hpq. Qed.

(** The event a call with [every] alone, or with [once] alone, returns. *)
Lemma call_every_result self (nm : string) (n : Z) :
  _name_ self = Some nm -> 0 < n ->
  __call__ self VNone (VInt n) VNone
  = Ok (new (_value_ self)
          (if n =? 1 then VNone else every_event_filter n) (Some nm)).
Proof.
  intros Hn Hpos. unfold __call__, name, value. cbn.
  rewrite (proj2 (Z.ltb_lt 0 n) Hpos), Hn. cbn.
  destruct (n =? 1); reflexivity.
Qed.

Lemma call_once_result self (nm : string) (m : Z) :
  _name_ self = Some nm -> 0 < m ->
  __call__ self VNone VNone (VInt m)
  = Ok (new (_value_ self) (once_event_filter m) (Some nm)).
Proof.
  intros Hn Hpos. unfold __call__, name, value. cbn.
  rewrite (proj2 (Z.ltb_lt 0 m) Hpos), Hn. reflexivity.
Qed.

(** X6: over the counters 1 to [k], an event made with [every = n] fires at
    [n], [2n], ... and nowhere else, [k / n] times in all, in this order. *)
Theorem every_fires_at_multiples self (nm : string) (n : Z) :
  _name_ self = Some nm -> 0 < n ->
  exists e,
    __call__ self VNone (VInt n) VNone = Ok e
    /\ forall engine (k : nat),
         fired (filter e) engine k
         = (fun i => n * i) <$> seqZ 1 (Z.of_nat k / n).
Proof.
  intros Hn Hpos. eexists. split; [exact (call_every_result _ _ _ Hn Hpos)|].
  intros engine k. unfold fired.
  rewrite <- (multiples_upto n k Hpos). apply filter_ext_bool.
  intros c. unfold answers_true.
  destruct (n =? 1) eqn:H1.
  - apply Z.eqb_eq in H1 as ->. cbn. now rewrite Z.mod_1_r.
  - cbn. destruct (n =? 0) eqn:H0; [apply Z.eqb_eq in H0; lia|].
    destruct (c mod n =? 0); reflexivity.
Qed.

(** X7: over the counters 1 to [k], an event made with [once = m] fires at
    [m] alone when [m] is at most [k], and not at all otherwise. *)
Theorem once_fires_once self (nm : string) (m : Z) :
  _name_ self = Some nm -> 0 < m ->
  exists e,
    __call__ self VNone VNone (VInt m) = Ok e
    /\ forall engine (k : nat),
         fired (filter e) engine k
         = if bool_decide (m <= Z.of_nat k) then [m] else [].
Proof.
  intros Hn Hpos. eexists. split; [exact (call_once_result _ _ _ Hn Hpos)|].
  intros engine k. unfold fired.
  rewrite (filter_ext_bool _ (fun c => c =? m)).
  2:{ intros c. unfold answers_true. cbn. destruct (c =? m); reflexivity. }
  induction k as [|k IH].
  - cbn. rewrite bool_decide_eq_false_2; [reflexivity|lia].
  - rewrite seqZ_S, List.filter_app, IH. cbn [List.filter].
    destruct (1 + Z.of_nat k =? m) eqn:Hm.
    + apply Z.eqb_eq in Hm.
      rewrite bool_decide_eq_false_2 by lia.
      rewrite bool_decide_eq_true_2 by lia. cbn. now rewrite Hm.
    + apply Z.eqb_neq in Hm. rewrite app_nil_r.
      destruct (decide (m <= Z.of_nat k)) as [Hle|Hgt].
      * rewrite !bool_decide_eq_true_2 by lia. reflexivity.
      * rewrite !bool_decide_eq_false_2 by lia. reflexivity.
Qed.

End FiringProperties.

Section FiringPropertiesWitnesses.

Import CallableEventWithFilter.

(** [ITERATION_STARTED(every=3)] over the counters 1 to 6 fires at 3 and
    at 6. *)
Lemma every_fires_at_multiples_witness :
  exists e : event unit,
    __call__ (Events.get Events.ITERATION_STARTED) VNone (VInt 3) VNone = Ok e
    /\ fired (filter e) tt 6 = [3; 6].
Proof.
  destruct (every_fires_at_multiples
              (Events.get Events.ITERATION_STARTED : event unit)
              "ITERATION_STARTED" 3 eq_refl ltac:(lia)) as (e & Hcall & Hfired).
  exists e. split; [exact Hcall|exact (Hfired tt 6%nat)].
Defined.

(** [ITERATION_STARTED(once=4)] over the counters 1 to 6 fires at 4; over 1
    to 3 it does not fire. *)
Lemma once_fires_once_witness :
  exists e : event unit,
    __call__ (Events.get Events.ITERATION_STARTED) VNone VNone (VInt 4) = Ok e
    /\ fired (filter e) tt 6 = [4]
    /\ fired (filter e) tt 3 = [].
Proof.
  destruct (once_fires_once
              (Events.get Events.ITERATION_STARTED : event unit)
              "ITERATION_STARTED" 4 eq_refl ltac:(lia)) as (e & Hcall & Hfired).
  exists e. split; [exact Hcall|].
  split; [exact (Hfired tt 6%nat)|exact (Hfired tt 3%nat)].
Defined.

End FiringPropertiesWitnesses.

(** ** Equality and hash of arbitrary events *)

Section MoreIdentityProperties.
Context {Engine : Type} `{StrHash}.
Implicit Types (a b c e key : event Engine).

Import CallableEventWithFilter.

Local Abbreviation event_to_attr := (State.event_to_attr (Engine:=Engine)).

Lemma eq_events_true_names a b :
  __eq__ a (VEvent b) = Ok true ->
  exists n : string, _name_ a = Some n /\ _name_ b = Some n.
Proof.
  unfold __eq__, name.
  destruct (_name_ a) as [n|], (_name_ b) as [m|]; cbn; try discriminate.
  intros [= Heq]. apply String.eqb_eq in Heq as ->. eauto.
Qed.

(** X8: equality and hash agree, as the keys of a dict need: two events that
    are equal have the same hash, and an event that is equal to a string has
    the hash of the string. *)
Theorem equal_events_hash_alike :
  (forall a b,
      __eq__ a (VEvent b) = Ok true ->
      exists h : Z, __hash__ a = Ok h /\ __hash__ b = Ok h)
  /\ (forall a (s : string),
        __eq__ a (VStr s) = Ok true -> __hash__ a = Ok (str_hash s)).
Proof.
  split.
  - intros a b (n & Ha & Hb)%eq_events_true_names.
    exists (str_hash n). unfold __hash__. now rewrite Ha, Hb.
  - intros a s. unfold __eq__, __hash__, name.
    destruct (_name_ a) as [n|]; cbn; [|discriminate].
    intros [= Heq]. apply String.eqb_eq in Heq as ->. reflexivity.
Qed.

(** X9: on events, [__eq__] is an equivalence: an event with a name equals
    itself, the answer does not depend on the side an event stands on, and
    two events equal to a third are equal. *)
Theorem eq_is_equivalence a b c :
  (is_Some (_name_ a) -> __eq__ a (VEvent a) = Ok true)
  /\ (forall r : bool,
        __eq__ a (VEvent b) = Ok r -> __eq__ b (VEvent a) = Ok r)
  /\ (__eq__ a (VEvent b) = Ok true -> __eq__ b (VEvent c) = Ok true ->
      __eq__ a (VEvent c) = Ok true).
Proof.
  split; [|split].
  - intros [n Hn]. unfold __eq__, name. rewrite Hn. cbn.
    now rewrite String.eqb_refl.
  - intros r. unfold __eq__, name.
    destruct (_name_ a) as [n|], (_name_ b) as [m|]; cbn; try discriminate.
    now rewrite String.eqb_sym.
  - intros (n & Ha & Hb)%eq_events_true_names (m & Hb' & Hc)%eq_events_true_names.
    rewrite Hb in Hb'. injection Hb' as <-.
    unfold __eq__, name. rewrite Ha, Hc. cbn. now rewrite String.eqb_refl.
Qed.

(** X10: an event constructed without a name cannot be compared with an
    event or a string, nor be compared to, hashed, called or looked up in a
    state: each raises [AttributeError]. *)
Theorem nameless_event_raises e :
  _name_ e = None ->
  (forall o, __eq__ e (VEvent o) = raise AttributeError "")
  /\ (forall s, __eq__ e (VStr s) = raise AttributeError "")
  /\ (forall a, is_Some (_name_ a) ->
        __eq__ a (VEvent e) = raise AttributeError "")
  /\ __hash__ e = raise AttributeError ""
  /\ (forall n, 0 < n ->
        __call__ e VNone (VInt n) VNone = raise AttributeError ""
        /\ __call__ e VNone VNone (VInt n) = raise AttributeError "")
  /\ (forall self : gmap string (pyval Engine),
        State.get_event_attrib_value self e = raise AttributeError "").
Proof.
  intros He. unfold __eq__, __hash__, name. rewrite He.
  split; [reflexivity|]. split; [reflexivity|]. split.
  { intros a [n ->]. reflexivity. }
  split; [reflexivity|]. split.
  - intros n Hn. unfold __call__, name, value. cbn.
    rewrite (proj2 (Z.ltb_lt 0 n) Hn), He. cbn.
    split; [|reflexivity]. destruct (n =? 1); reflexivity.
  - intros self. unfold State.get_event_attrib_value, State.dict_contains.
    unfold __hash__. now rewrite He.
Qed.

Lemma attr_of_name_no_key (entries : list (event Engine * string))
    (n : string) :
  Forall (fun kv => _name_ kv.1 <> Some n) entries ->
  attr_of_name entries n = None.
Proof.
  induction 1 as [|[k v] rest Hk _ IH]; [reflexivity|].
  cbn in *. now destruct (decide (_name_ k = Some n)).
Qed.

(** X11: an event whose name is not the name of one of the eight keys of
    [event_to_attr], a custom event for instance, is an unknown event to the
    state, also when its hash is the hash of a key. *)
Theorem get_event_attrib_value_unknown_name
    (self : gmap string (pyval Engine)) key (n : string) :
  _name_ key = Some n ->
  (forall k : Events.member,
      k <> Events.EXCEPTION_RAISED -> n <> Events.member_name k) ->
  State.get_event_attrib_value self key
  = Err (Exception RuntimeError "Unknown event name '{}'"
           [Str_of (VEvent key)]).
Proof.
  intros Hkey Hother.
  rewrite (get_event_attrib_value_by_name self key n Hkey).
  rewrite attr_of_name_no_key; [reflexivity|].
  repeat constructor; cbn; intros [= Heq];
    match goal with
    | Heq : ?s = n |- _ =>
        first [ now apply (Hother Events.GET_BATCH_STARTED)
              | now apply (Hother Events.GET_BATCH_COMPLETED)
              | now apply (Hother Events.ITERATION_STARTED)
              | now apply (Hother Events.ITERATION_COMPLETED)
              | now apply (Hother Events.EPOCH_STARTED)
              | now apply (Hother Events.EPOCH_COMPLETED)
              | now apply (Hother Events.STARTED)
              | now apply (Hother Events.COMPLETED) ]
    end.
Qed.

(** X12: for every variant of a kind the state reads [iteration] when the
    kind is one of the two batch and the two iteration kinds, and [epoch]
    when it is one of the two epoch kinds, [STARTED] or [COMPLETED]; the
    value is the attribute's, and a state without the attribute raises
    [AttributeError]. *)
Theorem get_event_attrib_value_table (self : gmap string (pyval Engine))
    (k : Events.member) e :
  variant_of k e ->
  k <> Events.EXCEPTION_RAISED ->
  let attr :=
    match k with
    | Events.GET_BATCH_STARTED | Events.GET_BATCH_COMPLETED
    | Events.ITERATION_STARTED | Events.ITERATION_COMPLETED => "iteration"
    | _ => "epoch"
    end%string in
  State.get_event_attrib_value self e
  = match self !! attr with
    | Some v => Ok v
    | None => raise AttributeError ""
    end.
Proof.
  intros [Hn _]%variant_of_identity Hk attr.
  rewrite (get_event_attrib_value_by_name self e _ Hn).
  destruct k; try (now destruct Hk); reflexivity.
Qed.

End MoreIdentityProperties.

Section MoreIdentityPropertiesWitnesses.

Import CallableEventWithFilter.

Lemma equal_events_hash_alike_witness :
  (exists h : Z,
      __hash__ (H:=ListEngine.length_hash) Sample.started_every_3 = Ok h
      /\ __hash__ (H:=ListEngine.length_hash)
           (Events.get Events.STARTED : event unit) = Ok h)
  /\ __hash__ (H:=ListEngine.length_hash) Sample.started_every_3
     = Ok (str_hash (StrHash:=ListEngine.length_hash) "STARTED").
Proof.
  split.
  - apply (proj1 (equal_events_hash_alike (H:=ListEngine.length_hash))
             Sample.started_every_3 (Events.get Events.STARTED)).
    reflexivity.
  - apply (proj2 (equal_events_hash_alike (H:=ListEngine.length_hash))
             Sample.started_every_3 "STARTED").
    reflexivity.
Defined.

Lemma eq_is_equivalence_witness :
  __eq__ Sample.started_every_3 (VEvent Sample.started_every_3) = Ok true
  /\ __eq__ Sample.started_once_5 (VEvent Sample.started_every_3) = Ok true
  /\ __eq__ Sample.started_every_3 (VEvent (Events.get Events.STARTED))
     = Ok true.
Proof.
  destruct (eq_is_equivalence Sample.started_every_3 Sample.started_once_5
              (Events.get Events.STARTED)) as (Hrefl & Hsym & Htrans).
  split; [apply Hrefl; eexists; reflexivity|].
  split; [apply Hsym; reflexivity|].
  apply Htrans; reflexivity.
Defined.

Lemma nameless_event_raises_witness :
  __eq__ Cases.nameless (VStr "custom") = raise AttributeError ""
  /\ __hash__ (H:=ListEngine.length_hash) Cases.nameless
     = raise AttributeError ""
  /\ __call__ Cases.nameless VNone (VInt 2) VNone = raise AttributeError "".
Proof.
  destruct (nameless_event_raises (H:=ListEngine.length_hash)
              Cases.nameless eq_refl) as (_ & Hstr & _ & Hhash & Hcall & _).
  split; [apply Hstr|]. split; [exact Hhash|].
  apply (proj1 (Hcall 2 ltac:(lia))).
Defined.

(** The custom event [STOPPED] is unknown although, with the length as hash,
    its hash is the one of the key [STARTED]. *)
Lemma get_event_attrib_value_unknown_name_witness :
  State.get_event_attrib_value (H:=ListEngine.length_hash) Sample.state
    Cases.stopped
  = Err (Exception RuntimeError "Unknown event name '{}'"
           [Str_of (VEvent Cases.stopped)])
  /\ __hash__ (H:=ListEngine.length_hash) Cases.stopped
     = __hash__ (H:=ListEngine.length_hash)
         (Events.get Events.STARTED : event unit).
Proof.
  split; [|reflexivity].
  apply (get_event_attrib_value_unknown_name (H:=ListEngine.length_hash)
           Sample.state Cases.stopped "STOPPED" eq_refl).
  intros k _. destruct k; discriminate.
Defined.

Lemma get_event_attrib_value_table_witness :
  State.get_event_attrib_value (H:=ListEngine.length_hash) Sample.state
    Sample.iteration_completed_every_10 = Ok (VInt 250)
  /\ State.get_event_attrib_value (H:=ListEngine.length_hash) Sample.state
       Sample.started_every_3 = Ok (VInt 3).
Proof.
  split.
  - apply (get_event_attrib_value_table (H:=ListEngine.length_hash)
             Sample.state Events.ITERATION_COMPLETED
             Sample.iteration_completed_every_10
             iteration_completed_every_10_variant).
    discriminate.
  - apply (get_event_attrib_value_table (H:=ListEngine.length_hash)
             Sample.state Events.STARTED Sample.started_every_3
             started_every_3_variant).
    discriminate.
Defined.

End MoreIdentityPropertiesWitnesses.

(** ** Reading and growing an event list *)

Section MoreEventsListProperties.
Context {Engine : Type}.
Implicit Types (A B e : event Engine) (w : world Engine) (l : addr)
  (v : pyval Engine).

(** X13: an index from 0 to the length excluded reads the event at that
    place; a negative index down to minus the length reads as the index plus
    the length, so that -1 is the last event; every other index raises
    [IndexError], as every index does on an empty list.  Reading leaves the
    store as it is. *)
Theorem getitem_bounds l (i : Z) w :
  let n := Z.of_nat (length (EventsList._events w l)) in
  (0 <= i < n ->
   exists e, EventsList._events w l !! Z.to_nat i = Some e
             /\ EventsList.__getitem__ l i w = (Ok (VEvent e), w))
  /\ (- n <= i < 0 ->
      EventsList.__getitem__ l i w = EventsList.__getitem__ l (i + n) w)
  /\ (i < - n \/ n <= i ->
      EventsList.__getitem__ l i w = (raise IndexError "", w)).
Proof.
  intros n. unfold EventsList.__getitem__. fold n. split; [|split].
  - intros Hi. destruct (i <? 0) eqn:Hneg; [apply Z.ltb_lt in Hneg; lia|].
    rewrite (proj2 (Z.leb_le 0 i)), (proj2 (Z.ltb_lt i n)) by lia. cbn.
    destruct (lookup_lt_is_Some_2 (EventsList._events w l) (Z.to_nat i))
      as [e He]; [lia|].
    exists e. now rewrite He.
  - intros Hi. rewrite (proj2 (Z.ltb_lt i 0)) by lia.
    destruct (i + n <? 0) eqn:Hneg; [apply Z.ltb_lt in Hneg; lia|].
    reflexivity.
  - intros [Hi|Hi].
    + rewrite (proj2 (Z.ltb_lt i 0)) by lia.
      now rewrite (proj2 (Z.leb_gt 0 (i + n))) by lia.
    + destruct (i <? 0) eqn:Hneg; [apply Z.ltb_lt in Hneg; lia|].
      rewrite (proj2 (Z.ltb_ge i n)) by lia. now rewrite andb_false_r.
Qed.



Lemma or_all_events l (Bs : list (event Engine)) : forall w,
  exists w',
    or_all l (VEvent <$> Bs) w = (Ok l, w')
    /\ EventsList._events w' l = EventsList._events w l ++ Bs
    /\ (forall l', l' <> l -> events_lists w' !! l' = events_lists w !! l').
Proof.
  induction Bs as [|B Bs IH]; intros w.
  - exists w. split; [reflexivity|]. split; [now rewrite app_nil_r|done].
  - cbn [fmap list_fmap or_all]. rewrite bind_run, or_event_run.
    destruct (IH (set_events_lists
                    (insert l (EventsList._events w l ++ [B])) w))
      as (w' & Hrun & Hev & Hother).
    exists w'. split; [exact Hrun|]. split.
    + rewrite Hev, events_after_insert, <- app_assoc. reflexivity.
    + intros l' Hne. rewrite (Hother l' Hne). cbn.
      now rewrite lookup_insert_ne.
Qed.

(** X16: a chain [A | B | B1 | ... | Bn] of events, of any length, is one
    list that holds [A], [B], [B1], ..., [Bn] in this order; its length is
    the number of the operands. *)
Theorem or_chain_of_any_length A B (Bs : list (event Engine)) w :
  exists l w',
    (l ← event_or A (VEvent B); or_all l (VEvent <$> Bs)) w = (Ok l, w')
    /\ EventsList._events w' l = A :: B :: Bs
    /\ EventsList.__iter__ l w' = (Ok (VEvent <$> A :: B :: Bs), w')
    /\ EventsList.__len__ l w' = (Ok (Z.of_nat (2 + length Bs)), w').
Proof.
  destruct (or_two_events A B w) as (l & w1 & Hor & Hev1).
  destruct (or_all_events l Bs w1) as (w' & Hall & Hev & _).
  exists l, w'. rewrite bind_run, Hor. split; [exact Hall|].
  rewrite Hev1 in Hev. split; [exact Hev|].
  unfold EventsList.__iter__, EventsList.__len__. rewrite Hev.
  split; reflexivity.
Qed.



End MoreEventsListProperties.

Section MoreEventsListPropertiesWitnesses.

(** On the list of three events at address 4: the indices 0 and -3 read
    [STARTED], and 3 is out of range. *)
Lemma getitem_bounds_witness :
  EventsList.__getitem__ 4%nat 0 Cases.world_with_list
  = (Ok (VEvent (Events.get Events.STARTED)), Cases.world_with_list)
  /\ EventsList.__getitem__ 4%nat (-3) Cases.world_with_list
     = EventsList.__getitem__ 4%nat (-3 + 3) Cases.world_with_list
  /\ EventsList.__getitem__ 4%nat 3 Cases.world_with_list
     = (raise IndexError "", Cases.world_with_list).
Proof.
  split; [|split].
  - destruct (proj1 (getitem_bounds 4%nat 0 Cases.world_with_list))
      as (e & He & Hget); [vm_compute; split; [discriminate|reflexivity]|].
    vm_compute in He. injection He as <-. exact Hget.
  - apply (proj1 (proj2 (getitem_bounds 4%nat (-3) Cases.world_with_list))).
    vm_compute. split; [discriminate|reflexivity].
  - apply (proj2 (proj2 (getitem_bounds 4%nat 3 Cases.world_with_list))).
    right. vm_compute. discriminate.
Defined.


End MoreEventsListPropertiesWitnesses.

(** ** Leaving a block, and a removal that fails *)

Section MoreHandleProperties.
Context {Engine : Type} `{EngineOps Engine}.
Implicit Types (self : RemovableEventHandle.t Engine) (w : world Engine)
  (h : addr) (e : pyval Engine) (es : list (pyval Engine)) (eng : Engine).

Import RemovableEventHandle.

(** X19: leaving the [with] block of a handle, when [remove] returns, the
    engine reports the handler for none of the events of the handle; entering
    the block gives the handle itself.  This relies on the engine: a removed
    handler is reported no more, and a removal registers nothing. *)
Theorem exit_unregisters self w h eng w' :
  EngineLaws Engine ->
  handler_ref w (handler self) = Some h ->
  engine_ref w (engine self) = Some eng ->
  __exit__ (__enter__ self) w = (Ok tt, w') ->
  exists eng',
    engine_ref w' (engine self) = Some eng'
    /\ forall e, e ∈ members w self -> has_event_handler eng' h e = false.
Proof.
  intros Hlaws Hh Heng. unfold __exit__, __enter__.
  destruct (remove_is_guarded_removal _ _ _ _ Hh Heng)
    as (tr & r & eng' & -> & Hg).
  intros [= -> <-]. exists eng'. split.
  - unfold engine_ref. cbn. apply lookup_insert_eq.
  - exact (guarded_removal_leaves_nothing _ _ _ _ _ Hg).
Qed.

(** X20: when the engine's removal raises for an event of the handle, after
    the events before it went through their guarded removal, [remove] raises
    the same exception at once: the calls it made are those for the events
    before, the query answered true and the failing removal; the engine is
    left as the failing call left it; and the events after it are neither
    asked about nor removed. *)
Theorem remove_stops_at_failure self w h eng es1 tr1 eng1 e es2 x eng' :
  handler_ref w (handler self) = Some h ->
  engine_ref w (engine self) = Some eng ->
  members w self = es1 ++ e :: es2 ->
  guarded_removal h eng es1 tr1 (Ok tt) eng1 ->
  has_event_handler eng1 h e = true ->
  remove_event_handler h e eng1 = (Err x, eng') ->
  remove self w
  = (Err x, World (events_lists w) (<[engine self := eng']> (engines w))
              (handlers w)
              (calls w ++ tr1 ++ [Has h e true; Remove h e])).
Proof.
  intros Hh Heng Hmem Hg Hhas Hrem.
  rewrite (remove_live _ _ _ _ Hh Heng), Hmem.
  rewrite (loop_after_guarded_removal _ _ _ _ _ Hg), loop_cons, Hhas, Hrem.
  now rewrite <- app_assoc.
Qed.

End MoreHandleProperties.

Section MoreHandlePropertiesWitnesses.

Import RemovableEventHandle.

(** After the block of the sample handle, handler 7 is reported for neither
    [STARTED] nor [COMPLETED]. *)
Lemma exit_unregisters_witness :
  exists eng',
    engine_ref Sample.world1 0%nat = Some eng'
    /\ has_event_handler eng' 7%nat (VEvent (Events.get Events.STARTED))
       = false
    /\ has_event_handler eng' 7%nat (VEvent Sample.completed_every_2) = false.
Proof.
  destruct (exit_unregisters Sample.handle Sample.world0 7%nat Sample.engine
              Sample.world1 list_engine_laws eq_refl eq_refl)
    as (eng' & Href & Habs).
  { vm_compute. reflexivity. }
  exists eng'. split; [exact Href|]. split; apply Habs.
  - apply list_elem_of_here.
  - apply list_elem_of_further, list_elem_of_here.
Defined.

(** On the engine whose removals raise, the handle stops at [STARTED]: one
    query and one removal are made, and [COMPLETED] is not asked about. *)
Lemma remove_stops_at_failure_witness :
  remove Cases.stubborn_handle Cases.stubborn_world
  = (Err (Exception ValueError "" []),
     World (events_lists Cases.stubborn_world)
       (<[0%nat := StubbornEngine.Make 1]> (engines Cases.stubborn_world))
       (handlers Cases.stubborn_world)
       (calls Cases.stubborn_world
        ++ [] ++ [Has 7%nat (VEvent (Events.get Events.STARTED)) true;
                  Remove 7%nat (VEvent (Events.get Events.STARTED))])).
Proof.
  apply (remove_stops_at_failure Cases.stubborn_handle Cases.stubborn_world
           7%nat (StubbornEngine.Make 0) [] [] (StubbornEngine.Make 0)
           (VEvent (Events.get Events.STARTED))
           [VEvent (Events.get Events.COMPLETED)]
           (Exception ValueError "" []) (StubbornEngine.Make 1)).
  - reflexivity.
  - reflexivity.
  - reflexivity.
  - constructor.
  - reflexivity.
  - reflexivity.
Defined.

End MoreHandlePropertiesWitnesses.
